(** * ChurnGuard: the retention-chat request handlers

    A shallow embedding of the four Lambda handlers under
    [backend/functions/] (start_conversation, send_message, handle_offer,
    get_conversation) and of the helpers they call, followed by the
    properties of the conversation / offer state machine.

    Conventions of the embedding:
    - a DynamoDB table is a finite map from the item's [id] to the item;
      an item is a record with the attributes the handlers write;
    - a parsed request body is a finite map from field names to strings;
    - the values the handlers draw from their environment ([uuid.uuid4],
      [datetime.utcnow], [random.choice], [random.random]) are explicit
      inputs, gathered in one record per handler;
    - a handler is a computation in a small state-and-exception monad over
      the three tables; every call to a table may raise, as decided by a
      fault schedule, and is recorded in a call log. *)

From Stdlib Require Import Ascii QArith.
From stdpp Require Import base option list sorting gmap strings.

Local Open Scope string_scope.

(** ** Strings *)

(** [str.lower()], on the ASCII letters. *)
Definition lower_ascii (c : ascii) : ascii :=
  let n := nat_of_ascii c in
  if (65 <=? n)%nat && (n <=? 90)%nat then ascii_of_nat (n + 32) else c.

Fixpoint lower (s : string) : string :=
  match s with
  | EmptyString => EmptyString
  | String c s' => String (lower_ascii c) (lower s')
  end.

(** [word in text]: [word] occurs in [text] as a contiguous substring. *)
Fixpoint contains (word text : string) : bool :=
  String.prefix word text ||
  match text with
  | EmptyString => false
  | String _ text' => contains word text'
  end.

(** [any(word in text for word in words)] *)
Definition any_in (words : list string) (text : string) : bool :=
  existsb (fun word => contains word text) words.

(** [random.choice(seq)], the draw being the index [i]. *)
Definition choice {A} (d : A) (seq : list A) (i : nat) : A :=
  nth (i mod length seq) seq d.

(** The double-quote character, for the literals that contain one. *)
Definition dquote : string := String (ascii_of_nat 34) EmptyString.

(** ** Data model: the items of the three tables *)

Inductive ConversationStatus := active | completed.
Inductive Outcome := retained | cancelled.
Inductive Sender := user | ai.
Inductive OfferType := discount | pause.
Inductive OfferStatus := pending | accepted | rejected.

Module Conversation.
Record t := {
  id : string;
  userId : string;
  subscriptionId : string;
  status : ConversationStatus;
  outcome : option Outcome;          (* [None] is Python's [None] *)
  reason : string;
  reasonText : string;
  createdAt : string;
  updatedAt : string
}.
End Conversation.

Module Message.
Record t := {
  id : string;
  conversationId : string;
  content : string;
  sender : Sender;
  timestamp : string
}.
End Message.

Module Offer.
Record t := {
  id : string;
  conversationId : string;
  type : OfferType;
  title : string;
  description : string;
  savings : list (string * Q);
  details : list (string * Q);
  terms : list string;
  expiresAt : string;
  createdAt : string;
  status : OfferStatus;
  updatedAt : option string          (* absent until the offer is resolved *)
}.
End Offer.

#[global] Instance ConversationStatus_eq_dec : EqDecision ConversationStatus.
Proof. solve_decision. Defined.
#[global] Instance Outcome_eq_dec : EqDecision Outcome.
Proof. solve_decision. Defined.
#[global] Instance Sender_eq_dec : EqDecision Sender.
Proof. solve_decision. Defined.
#[global] Instance OfferStatus_eq_dec : EqDecision OfferStatus.
Proof. solve_decision. Defined.

(** ** The store and the monad of the handlers *)

Record Store := {
  conversations_table : gmap string Conversation.t;
  messages_table : gmap string Message.t;
  offers_table : gmap string Offer.t
}.

Definition empty_store : Store :=
  {| conversations_table := ∅; messages_table := ∅; offers_table := ∅ |}.

Inductive Table := Conversations | Messages | Offers.

Inductive Call :=
| GetItem (table : Table) (key : string)
| PutItem (table : Table) (key : string)
| UpdateItem (table : Table) (key : string)
| Query (table : Table) (conversationId : string).

(** One entry of the call log: the call raised, or it returned a response
    with [Count] items (0 for the writes and for a missing item). *)
Inductive Entry :=
| Raised (c : Call)
| Returned (c : Call) (Count : nat).

Definition raised (e : Entry) : bool :=
  match e with Raised _ => true | Returned _ _ => false end.

Definition is_write (e : Entry) : bool :=
  match e with
  | Returned (PutItem _ _) _ | Returned (UpdateItem _ _) _ => true
  | _ => false
  end.

(** The fault schedule: whether the n-th call to a table, counted from the
    start of the request, raises. *)
Definition Faults := nat → bool.

Definition no_faults : Faults := λ _, false.

Record World := { store : Store; log : list Entry }.

Inductive Result (A : Type) :=
| Value (a : A)
| Exception.
Arguments Value {A} a.
Arguments Exception {A}.

Definition M (A : Type) : Type := Faults → World → Result A * World.

#[global] Instance M_ret : MRet M := λ A a _ w, (Value a, w).

#[global] Instance M_bind : MBind M := λ A B f m faults w,
  match m faults w with
  | (Value a, w') => f a faults w'
  | (Exception, w') => (Exception, w')
  end.

(** [try: body except Exception: handler] *)
Definition try_except {A} (body : M A) (handler : M A) : M A := λ faults w,
  match body faults w with
  | (Value a, w') => (Value a, w')
  | (Exception, w') => handler faults w'
  end.

(** A call to a table: it raises when the schedule says so, leaving the
    tables as they are; otherwise it runs and its response is returned. *)
Definition table_call {A} (c : Call) (Count : A → nat)
    (run : Store → A * Store) : M A := λ faults w,
  if faults (length (log w))
  then (Exception, {| store := store w; log := log w ++ [Raised c] |})
  else let '(a, s) := run (store w) in
       (Value a, {| store := s; log := log w ++ [Returned c (Count a)] |}).

(** Running a handler on a store, from an empty log. *)
Definition run {A} (m : M A) (faults : Faults) (s : Store) : Result A * World :=
  m faults {| store := s; log := [] |}.

(** ** The table operations the handlers use (boto3 [Table] methods) *)

Definition with_conversations
    (f : gmap string Conversation.t → gmap string Conversation.t) (s : Store) : Store :=
  {| conversations_table := f (conversations_table s);
     messages_table := messages_table s;
     offers_table := offers_table s |}.

Definition with_messages
    (f : gmap string Message.t → gmap string Message.t) (s : Store) : Store :=
  {| conversations_table := conversations_table s;
     messages_table := f (messages_table s);
     offers_table := offers_table s |}.

Definition with_offers
    (f : gmap string Offer.t → gmap string Offer.t) (s : Store) : Store :=
  {| conversations_table := conversations_table s;
     messages_table := messages_table s;
     offers_table := f (offers_table s) |}.

Definition found {A} (item : option A) : nat :=
  match item with Some _ => 1 | None => 0 end.

(** [conversations_table.get_item(Key={'id': key}).get('Item')] *)
Definition conversations_get_item (key : string) : M (option Conversation.t) :=
  table_call (GetItem Conversations key) found
    (λ s, (conversations_table s !! key, s)).

(** [conversations_table.put_item(Item=item)]: an unconditional upsert. *)
Definition conversations_put_item (item : Conversation.t) : M unit :=
  table_call (PutItem Conversations (Conversation.id item)) (λ _, 0)
    (λ s, (tt, with_conversations (insert (Conversation.id item) item) s)).

(** [conversations_table.update_item(Key={'id': key}, UpdateExpression='SET ...')],
    the SET clause being the function [set].  The handlers update only a
    key whose item they have read earlier in the same request (lemmas
    [offer_handler_updates_present] and [message_handler_updates_present]
    below); for a key with no item, which no run reaches, the table is
    left as it is. *)
Definition conversations_update_item (key : string)
    (set : Conversation.t → Conversation.t) : M unit :=
  table_call (UpdateItem Conversations key) (λ _, 0)
    (λ s, (tt, with_conversations (alter set key) s)).

Definition messages_put_item (item : Message.t) : M unit :=
  table_call (PutItem Messages (Message.id item)) (λ _, 0)
    (λ s, (tt, with_messages (insert (Message.id item) item) s)).

Definition timestamp_le (m1 m2 : Message.t) : Prop :=
  String.leb (Message.timestamp m1) (Message.timestamp m2).

#[global] Instance timestamp_le_dec m1 m2 : Decision (timestamp_le m1 m2).
Proof. unfold timestamp_le. apply _. Defined.

(** The items of the ConversationIdIndex for one conversation, in ascending
    order of timestamp. *)
Definition messages_of (conversation_id : string)
    (table : gmap string Message.t) : list Message.t :=
  merge_sort timestamp_le
    (filter (λ m, Message.conversationId m = conversation_id)
            (snd <$> map_to_list table)).

(** [messages_table.query(IndexName='ConversationIdIndex', ...)]: the
    response carries the matching [Items] and their [Count].  The index
    is read as up to date with the writes made before the query. *)
Definition messages_query (conversation_id : string) : M (list Message.t) :=
  table_call (Query Messages conversation_id) length
    (λ s, (messages_of conversation_id (messages_table s), s)).

Definition offers_get_item (key : string) : M (option Offer.t) :=
  table_call (GetItem Offers key) found (λ s, (offers_table s !! key, s)).

Definition offers_put_item (item : Offer.t) : M unit :=
  table_call (PutItem Offers (Offer.id item)) (λ _, 0)
    (λ s, (tt, with_offers (insert (Offer.id item) item) s)).

Definition offers_update_item (key : string) (set : Offer.t → Offer.t) : M unit :=
  table_call (UpdateItem Offers key) (λ _, 0)
    (λ s, (tt, with_offers (alter set key) s)).

Definition offers_of (conversation_id : string)
    (table : gmap string Offer.t) : list Offer.t :=
  filter (λ o, Offer.conversationId o = conversation_id)
         (snd <$> map_to_list table).

Definition offers_query (conversation_id : string) : M (list Offer.t) :=
  table_call (Query Offers conversation_id) length
    (λ s, (offers_of conversation_id (offers_table s), s)).

(** ** Requests and responses *)

(** The [body] of a Lambda event, after [json.loads]: the text does not
    parse, or it is an object whose fields hold strings, the type of
    every field the handlers read. *)
Inductive RequestBody :=
| InvalidJSON
| Json (fields : gmap string string).

Record LambdaEvent := {
  body : option RequestBody;                            (* ['body' in event] *)
  pathParameters : option (option (gmap string string)) (* absent, null or an object *)
}.

(** The payload given to [create_response], before [json.dumps]. *)
Inductive Payload :=
| Error (error : string)
| StartData (conversation : Conversation.t) (messages : list Message.t)
| MessageData (message : Message.t) (offer : option Offer.t)
| OfferData (outcome : Outcome) (message : Message.t)
| ConversationData (conversation : Conversation.t)
    (messages : list Message.t) (offers : list Offer.t).

Record Response := {
  statusCode : Z;
  headers : list (string * string);
  payload : Payload
}.

Definition cors_headers (methods : string) : list (string * string) :=
  [("Content-Type", "application/json");
   ("Access-Control-Allow-Origin", "*");
   ("Access-Control-Allow-Headers", "Content-Type");
   ("Access-Control-Allow-Methods", methods)].

(** [for field in required_fields: if field not in body: ...]: the first
    required field the body lacks. *)
Definition first_missing (required_fields : list string)
    (fields : gmap string string) : option string :=
  List.find (λ field, bool_decide (fields !! field = None)) required_fields.

(** ** backend/functions/start_conversation.py *)

Module start_conversation.

(** What one request draws from [uuid.uuid4] and [datetime.utcnow]. *)
Record Env := {
  conversation_id : string;
  message_id : string;
  timestamp : string
}.

Definition create_response (status_code : Z) (body : Payload) : Response :=
  {| statusCode := status_code;
     headers := cors_headers "POST, OPTIONS";
     payload := body |}.

Definition reason_responses (reason_text : string) : gmap string string :=
  list_to_map [
    ("too_expensive",
     "I understand that cost is a concern. Let me see what special offers I can provide to make this more affordable for you.");
    ("not_using",
     "I hear you - sometimes we sign up for things and don't use them as much as expected. Let me show you some options that might work better.");
    ("technical_issues",
     "I'm sorry you're experiencing technical difficulties. Let me help resolve those issues and see what we can do to improve your experience.");
    ("found_alternative",
     "I understand you've found another option. Before you go, let me show you some exclusive benefits that might change your mind.");
    ("other",
     "Thank you for sharing that with me: " ++ reason_text ++
     ". I'd like to understand your concerns better and see how we can address them.")
  ].

Definition generate_initial_message (reason reason_text : string) : string :=
  default
    ("I understand your concerns about: " ++ reason_text ++
     ". Let me see what I can do to help address this situation.")
    (reason_responses reason_text !! reason).

Definition required_fields : list string :=
  ["userId"; "subscriptionId"; "reason"; "reasonText"].

(** The conversation record of a new conversation. *)
Definition conversation_item (body : gmap string string) (env : Env)
    : Conversation.t :=
  {| Conversation.id := conversation_id env;
     Conversation.userId := body !!! "userId";
     Conversation.subscriptionId := body !!! "subscriptionId";
     Conversation.status := active;
     Conversation.outcome := None;
     Conversation.reason := body !!! "reason";
     Conversation.reasonText := body !!! "reasonText";
     Conversation.createdAt := timestamp env;
     Conversation.updatedAt := timestamp env |}.

(** The initial AI message. *)
Definition message_item (body : gmap string string) (env : Env) : Message.t :=
  let ai_message :=
    generate_initial_message (body !!! "reason") (body !!! "reasonText") in
  {| Message.id := message_id env;
     Message.conversationId := conversation_id env;
     Message.content := ai_message;
     Message.sender := ai;
     Message.timestamp := timestamp env |}.

Definition handler (event : LambdaEvent) (env : Env) : M Response :=
  try_except
    (match body event with
     | None => mret (create_response 400 (Error "Missing request body"))
     | Some InvalidJSON =>
         mret (create_response 400 (Error "Invalid JSON in request body"))
     | Some (Json body) =>
         match first_missing required_fields body with
         | Some field =>
             mret (create_response 400 (Error ("Missing required field: " ++ field)))
         | None =>
             (* Save to DynamoDB *)
             _ ← conversations_put_item (conversation_item body env);
             _ ← messages_put_item (message_item body env);
             mret (create_response 200
                     (StartData (conversation_item body env) [message_item body env]))
         end
     end)
    (mret (create_response 500 (Error "Internal server error"))).

End start_conversation.

(** ** backend/functions/send_message.py *)

Module send_message.

(** What one request draws from [uuid.uuid4], [datetime.utcnow] and
    [random], named after the variable that receives the value. *)
Record Env := {
  user_message_id : string;
  ai_message_id : string;
  timestamp : string;
  response_choice : nat;     (* [random.choice(responses)] *)
  offer_random : Q;          (* [random.random()] in [should_generate_offer] *)
  offer_id : string;
  offer_timestamp : string;
  expires_at : string;
  offer_choice : nat         (* [random.choice(offer_types)] *)
}.

Definition create_response (status_code : Z) (body : Payload) : Response :=
  {| statusCode := status_code;
     headers := cors_headers "POST, OPTIONS";
     payload := body |}.

(** Get conversation and verify ownership. *)
Definition get_conversation (conversation_id user_id : string)
    : M (option Conversation.t) :=
  try_except
    (conversation ← conversations_get_item conversation_id;
     mret (match conversation with
           | Some c =>
               if bool_decide (Conversation.userId c = user_id)
               then Some c else None
           | None => None
           end))
    (mret None).

(** Get total message count for conversation. *)
Definition get_message_count (conversation_id : string) : M Z :=
  try_except
    (Items ← messages_query conversation_id;
     mret (Z.of_nat (length Items)))
    (mret 0%Z).

Definition generate_ai_response (user_message : string)
    (conversation : Conversation.t) (i : nat) : string :=
  let user_message_lower := lower user_message in
  let responses :=
    if any_in ["expensive"; "cost"; "money"; "afford"; "price"] user_message_lower then [
      "I completely understand that budget is important. Let me see what special pricing options I can offer you.";
      "Cost is definitely a valid concern. I have some exclusive discounts that might help make this more affordable.";
      "I hear you on the pricing. Let me check what promotional offers are available for valued customers like you."
    ]
    else if any_in ["technical"; "bug"; "error"; "problem"; "issue"] user_message_lower then [
      "I'm sorry you're experiencing technical difficulties. Let me help resolve those issues and offer you something for the inconvenience.";
      "Technical problems can be really frustrating. I want to make this right for you with both a solution and a special offer.";
      "I apologize for the technical issues. Let me see how we can fix this and provide you with some compensation."
    ]
    else if any_in ["time"; "busy"; "use"; "using"] user_message_lower then [
      "I understand that life gets busy and priorities change. Let me show you some flexible options that might work better for your schedule.";
      "That makes perfect sense. Maybe we can find a plan that better fits your current lifestyle and usage patterns.";
      "I totally get that - sometimes our needs change. Let me offer you some alternatives that might be more suitable."
    ]
    else if any_in ["competitor"; "alternative"; "found"; "better"] user_message_lower then [
      "I understand you're exploring other options. Before you decide, let me show you some exclusive benefits that our competitors don't offer.";
      "That's completely understandable. I'd love to show you some unique features and offers that might change your perspective.";
      "I appreciate you being upfront about that. Let me present some special advantages that are only available to our existing customers."
    ]
    else [
      "I really appreciate you sharing that with me. Let me see what I can do to address your concerns.";
      "Thank you for explaining your situation. I want to find the best solution for you.";
      "I hear what you're saying, and I want to make sure we find something that works for you.";
      "That's valuable feedback. Let me see what options I have available to help with your situation."
    ] in
  choice "" responses i.

(** The doubles that the literals [0.2] and [0.4] denote. *)
Definition double_0_2 : Q := 3602879701896397 # 18014398509481984.
Definition double_0_4 : Q := 3602879701896397 # 9007199254740992.

(** [a > b] on numbers. *)
Definition gt (a b : Q) : bool := negb (Qle_bool a b).

Definition trigger_words : list string :=
  ["expensive"; "cost"; "technical"; "problem"; "issue"; "better"; "competitor"].

(** Determine if we should generate a retention offer; [r] is the value
    of the one [random.random()] that is evaluated. *)
Definition should_generate_offer (message_count : Z) (user_message : string)
    (r : Q) : bool :=
  if (message_count <? 4)%Z then false
  else
    let user_message_lower := lower user_message in
    if any_in trigger_words user_message_lower
    then gt r double_0_2
    else gt r double_0_4.

(** One entry of an [offer_types] list. *)
Record OfferTemplate := {
  type : OfferType;
  title : string;
  description : string;
  savings : list (string * Q);
  details : list (string * Q)
}.

Definition offer_types (reason : string) : list OfferTemplate :=
  if String.eqb reason "too_expensive" then [
    {| type := discount;
       title := "50% Off for 3 Months";
       description := "Get 50% off your subscription for the next 3 months, then continue at the regular price.";
       savings := [("monthly", 15%Q); ("total", 45%Q)];
       details := [("originalPrice", 29.99%Q); ("newPrice", 14.99%Q)] |};
    {| type := discount;
       title := "2 Months Free";
       description := "Get 2 months completely free, then resume your regular billing cycle.";
       savings := [("monthly", 30%Q); ("total", 60%Q)];
       details := [("originalPrice", 29.99%Q); ("freeMonths", 2%Q)] |}
  ]
  else if String.eqb reason "technical_issues" then [
    {| type := discount;
       title := "1 Month Free + Priority Support";
       description := "Get 1 month free and priority technical support to resolve any issues.";
       savings := [("monthly", 30%Q); ("total", 30%Q)];
       details := [("originalPrice", 29.99%Q); ("freeMonths", 1%Q)] |};
    {| type := pause;
       title := "Pause + Technical Resolution";
       description := "Pause your subscription while we resolve technical issues, then resume with 1 month free.";
       savings := [("monthly", 30%Q); ("total", 30%Q)];
       details := [("pauseDuration", 1%Q); ("freeMonths", 1%Q)] |}
  ]
  else if String.eqb reason "not_using" then [
    {| type := pause;
       title := "Pause for 3 Months";
       description := "Pause your subscription for up to 3 months and resume whenever you're ready.";
       savings := [("monthly", 30%Q); ("total", 90%Q)];
       details := [("pauseDuration", 3%Q)] |};
    {| type := discount;
       title := "70% Off for 6 Months";
       description := "Try us again at 70% off for 6 months - perfect for getting back into the habit.";
       savings := [("monthly", 21%Q); ("total", 126%Q)];
       details := [("originalPrice", 29.99%Q); ("newPrice", 8.99%Q)] |}
  ]
  else [
    {| type := discount;
       title := "40% Off for 4 Months";
       description := "Get 40% off your subscription for the next 4 months.";
       savings := [("monthly", 12%Q); ("total", 48%Q)];
       details := [("originalPrice", 29.99%Q); ("newPrice", 17.99%Q)] |};
    {| type := pause;
       title := "Flexible Pause Option";
       description := "Pause your subscription for up to 2 months and resume when convenient.";
       savings := [("monthly", 30%Q); ("total", 60%Q)];
       details := [("pauseDuration", 2%Q)] |}
  ].

Definition no_offer : OfferTemplate :=
  {| type := discount; title := ""; description := ""; savings := []; details := [] |}.

(** The offer [generate_retention_offer] builds. *)
Definition retention_offer (conversation_id : string)
    (conversation : Conversation.t) (env : Env) : Offer.t :=
  let reason := Conversation.reason conversation in
  let selected_offer := choice no_offer (offer_types reason) (offer_choice env) in
  {| Offer.id := offer_id env;
     Offer.conversationId := conversation_id;
     Offer.type := type selected_offer;
     Offer.title := title selected_offer;
     Offer.description := description selected_offer;
     Offer.savings := savings selected_offer;
     Offer.details := details selected_offer;
     Offer.terms := [
       "Offer valid for existing customers only";
       "Cannot be combined with other offers";
       "Subscription will auto-renew at regular price after promotional period"
     ];
     Offer.expiresAt := expires_at env;
     Offer.createdAt := offer_timestamp env;
     Offer.status := pending;
     Offer.updatedAt := None |}.

(** Generate a retention offer based on conversation context; the return
    type is [Optional], the value is always an offer. *)
Definition generate_retention_offer (conversation_id : string)
    (conversation : Conversation.t) (env : Env) : option Offer.t :=
  Some (retention_offer conversation_id conversation env).

Definition required_fields : list string := ["conversationId"; "message"; "userId"].

Definition user_message_item (conversation_id user_message : string) (env : Env)
    : Message.t :=
  {| Message.id := user_message_id env;
     Message.conversationId := conversation_id;
     Message.content := user_message;
     Message.sender := user;
     Message.timestamp := timestamp env |}.

Definition ai_message_item (conversation_id ai_response : string) (env : Env)
    : Message.t :=
  {| Message.id := ai_message_id env;
     Message.conversationId := conversation_id;
     Message.content := ai_response;
     Message.sender := ai;
     Message.timestamp := timestamp env |}.

(** [SET updatedAt = :timestamp] on a conversation. *)
Definition set_updatedAt (timestamp : string) (c : Conversation.t) : Conversation.t :=
  {| Conversation.id := Conversation.id c;
     Conversation.userId := Conversation.userId c;
     Conversation.subscriptionId := Conversation.subscriptionId c;
     Conversation.status := Conversation.status c;
     Conversation.outcome := Conversation.outcome c;
     Conversation.reason := Conversation.reason c;
     Conversation.reasonText := Conversation.reasonText c;
     Conversation.createdAt := Conversation.createdAt c;
     Conversation.updatedAt := timestamp |}.

(** The offer step of the handler: the offer that is generated and
    saved, if any, given the message count. *)
Definition maybe_offer (message_count : Z) (conversation_id user_message : string)
    (conversation : Conversation.t) (env : Env) : M (option Offer.t) :=
  if should_generate_offer message_count user_message (offer_random env)
  then
    match generate_retention_offer conversation_id conversation env with
    | Some offer => _ ← offers_put_item offer; mret (Some offer)
    | None => mret None
    end
  else mret None.

Definition handler (event : LambdaEvent) (env : Env) : M Response :=
  try_except
    (match body event with
     | None => mret (create_response 400 (Error "Missing request body"))
     | Some InvalidJSON =>
         mret (create_response 400 (Error "Invalid JSON in request body"))
     | Some (Json body) =>
         match first_missing required_fields body with
         | Some field =>
             mret (create_response 400 (Error ("Missing required field: " ++ field)))
         | None =>
             let conversation_id := body !!! "conversationId" in
             let user_message := body !!! "message" in
             let user_id := body !!! "userId" in
             (* Verify conversation exists and belongs to user *)
             conversation ← get_conversation conversation_id user_id;
             match conversation with
             | None => mret (create_response 404 (Error "Conversation not found"))
             | Some conversation =>
                 (* Save user message *)
                 _ ← messages_put_item (user_message_item conversation_id user_message env);
                 (* Generate AI response *)
                 let ai_response :=
                   generate_ai_response user_message conversation (response_choice env) in
                 _ ← messages_put_item (ai_message_item conversation_id ai_response env);
                 (* Check if we should generate an offer *)
                 message_count ← get_message_count conversation_id;
                 offer ← maybe_offer message_count conversation_id user_message
                           conversation env;
                 (* Update conversation timestamp *)
                 _ ← conversations_update_item conversation_id
                       (set_updatedAt (timestamp env));
                 mret (create_response 200
                         (MessageData (ai_message_item conversation_id ai_response env)
                                      offer))
             end
         end
     end)
    (mret (create_response 500 (Error "Internal server error"))).

End send_message.

(** ** backend/functions/handle_offer.py *)

Module handle_offer.

Record Env := {
  timestamp : string;
  message_choice : nat;      (* [random.choice(messages)] *)
  message_id : string
}.

Definition create_response (status_code : Z) (body : Payload) : Response :=
  {| statusCode := status_code;
     headers := cors_headers "POST, OPTIONS";
     payload := body |}.

(** Generate final AI message based on user's decision. *)
Definition generate_final_message (action : string) (offer : Offer.t) (i : nat)
    : string :=
  if String.eqb action "accept" then
    let offer_title := Offer.title offer in
    let messages := [
      "Wonderful! I'm so glad we could work this out. Your " ++ lower offer_title ++
      " is now active on your account. Thank you for staying with us!";
      "Excellent choice! Your " ++ lower offer_title ++
      " has been applied to your account. We really appreciate your continued loyalty.";
      "Perfect! I've activated your " ++ lower offer_title ++
      ". You should see the changes reflected in your next billing cycle. Thanks for giving us another chance!";
      "Great news! Your " ++ lower offer_title ++
      " is now live. We're thrilled to have you continue as part of our community!"
    ] in
    choice "" messages i
  else
    let messages := [
      "I understand, and I respect your decision. Your cancellation will be processed as requested. We're sorry to see you go, but you're always welcome back.";
      "I completely understand. We'll proceed with your cancellation. Thank you for giving us the opportunity to try to address your concerns.";
      "No problem at all - I appreciate you taking the time to consider our offer. Your cancellation will be processed, and we hope to see you again in the future.";
      "That's perfectly fine. We'll go ahead with the cancellation as you requested. Thank you for being a customer, and we wish you all the best."
    ] in
    choice "" messages i.

Definition required_fields : list string :=
  ["conversationId"; "offerId"; "action"; "userId"].

(** [SET #status = :status, updatedAt = :timestamp] on an offer. *)
Definition set_offer_status (status : OfferStatus) (timestamp : string)
    (o : Offer.t) : Offer.t :=
  {| Offer.id := Offer.id o;
     Offer.conversationId := Offer.conversationId o;
     Offer.type := Offer.type o;
     Offer.title := Offer.title o;
     Offer.description := Offer.description o;
     Offer.savings := Offer.savings o;
     Offer.details := Offer.details o;
     Offer.terms := Offer.terms o;
     Offer.expiresAt := Offer.expiresAt o;
     Offer.createdAt := Offer.createdAt o;
     Offer.status := status;
     Offer.updatedAt := Some timestamp |}.

(** [SET #status = :status, outcome = :outcome, updatedAt = :timestamp]
    on a conversation. *)
Definition set_conversation_outcome (status : ConversationStatus)
    (outcome : Outcome) (timestamp : string) (c : Conversation.t) : Conversation.t :=
  {| Conversation.id := Conversation.id c;
     Conversation.userId := Conversation.userId c;
     Conversation.subscriptionId := Conversation.subscriptionId c;
     Conversation.status := status;
     Conversation.outcome := Some outcome;
     Conversation.reason := Conversation.reason c;
     Conversation.reasonText := Conversation.reasonText c;
     Conversation.createdAt := Conversation.createdAt c;
     Conversation.updatedAt := timestamp |}.

Definition offer_status_of (action : string) : OfferStatus :=
  if String.eqb action "accept" then accepted else rejected.

Definition outcome_of (action : string) : Outcome :=
  if String.eqb action "accept" then retained else cancelled.

Definition final_message_item (conversation_id action : string) (offer : Offer.t)
    (env : Env) : Message.t :=
  let final_message := generate_final_message action offer (message_choice env) in
  {| Message.id := message_id env;
     Message.conversationId := conversation_id;
     Message.content := final_message;
     Message.sender := ai;
     Message.timestamp := timestamp env |}.

Definition handler (event : LambdaEvent) (env : Env) : M Response :=
  try_except
    (match body event with
     | None => mret (create_response 400 (Error "Missing request body"))
     | Some InvalidJSON =>
         mret (create_response 400 (Error "Invalid JSON in request body"))
     | Some (Json body) =>
         match first_missing required_fields body with
         | Some field =>
             mret (create_response 400 (Error ("Missing required field: " ++ field)))
         | None =>
             let conversation_id := body !!! "conversationId" in
             let offer_id := body !!! "offerId" in
             let action := body !!! "action" in
             let user_id := body !!! "userId" in
             if negb (String.eqb action "accept" || String.eqb action "reject") then
               mret (create_response 400
                 (Error ("Action must be " ++ dquote ++ "accept" ++ dquote ++
                         " or " ++ dquote ++ "reject" ++ dquote)))
             else
             (* Verify conversation exists and belongs to user *)
             conversation ← conversations_get_item conversation_id;
             match conversation with
             | None => mret (create_response 404 (Error "Conversation not found"))
             | Some conversation =>
             if bool_decide (Conversation.userId conversation ≠ user_id) then
               mret (create_response 404 (Error "Conversation not found"))
             else
             (* Verify offer exists and belongs to conversation *)
             offer ← offers_get_item offer_id;
             match offer with
             | None => mret (create_response 404 (Error "Offer not found"))
             | Some offer =>
             if bool_decide (Offer.conversationId offer ≠ conversation_id) then
               mret (create_response 404 (Error "Offer not found"))
             else if bool_decide (Offer.status offer ≠ pending) then
               mret (create_response 400 (Error "Offer is no longer available"))
             else
             (* Update offer status *)
             _ ← offers_update_item offer_id
                   (set_offer_status (offer_status_of action) (timestamp env));
             (* Determine conversation outcome *)
             let outcome := outcome_of action in
             (* Update conversation *)
             _ ← conversations_update_item conversation_id
                   (set_conversation_outcome completed outcome (timestamp env));
             (* Generate final AI message *)
             _ ← messages_put_item (final_message_item conversation_id action offer env);
             mret (create_response 200
                     (OfferData outcome (final_message_item conversation_id action offer env)))
             end
             end
         end
     end)
    (mret (create_response 500 (Error "Internal server error"))).

End handle_offer.

(** ** backend/functions/get_conversation.py *)

Module get_conversation.

Definition create_response (status_code : Z) (body : Payload) : Response :=
  {| statusCode := status_code;
     headers := cors_headers "GET, OPTIONS";
     payload := body |}.

Definition handler (event : LambdaEvent) : M Response :=
  try_except
    (match default (Some ∅) (pathParameters event) with
     | None => λ _ w, (Exception, w)     (* [None.get('id')] raises *)
     | Some parameters =>
         match parameters !! "id" with
         | None | Some "" => mret (create_response 400 (Error "Missing conversation ID"))
         | Some conversation_id =>
             conversation ← conversations_get_item conversation_id;
             match conversation with
             | None => mret (create_response 404 (Error "Conversation not found"))
             | Some conversation =>
                 messages ← messages_query conversation_id;
                 offers ← offers_query conversation_id;
                 mret (create_response 200
                         (ConversationData conversation messages offers))
             end
         end
     end)
    (mret (create_response 500 (Error "Internal server error"))).

End get_conversation.

(** ** The service: serialized requests against one store *)

Inductive Request :=
| StartRequest (event : LambdaEvent) (env : start_conversation.Env)
| MessageRequest (event : LambdaEvent) (env : send_message.Env)
| OfferRequest (event : LambdaEvent) (env : handle_offer.Env)
| ReadRequest (event : LambdaEvent).

Definition handle (request : Request) : M Response :=
  match request with
  | StartRequest event env => start_conversation.handler event env
  | MessageRequest event env => send_message.handler event env
  | OfferRequest event env => handle_offer.handler event env
  | ReadRequest event => get_conversation.handler event
  end.

(** The store after one request, served under its own fault schedule. *)
Definition serve (s : Store) (request : Request * Faults) : Store :=
  store (snd (run (handle (fst request)) (snd request) s)).

(** The store after a sequence of requests, served one after the other. *)
Definition serve_all (requests : list (Request * Faults)) (s : Store) : Store :=
  foldl serve s requests.

(** The invariant of a conversation record. *)
Definition outcome_null_iff_active (c : Conversation.t) : Prop :=
  Conversation.outcome c = None ↔ Conversation.status c = active.

Definition store_invariant (s : Store) : Prop :=
  map_Forall (λ _ c, outcome_null_iff_active c) (conversations_table s).

(** [P] holds of the store after [m], whenever it holds before. *)
Definition preserves {A} (P : Store → Prop) (m : M A) : Prop :=
  ∀ faults w, P (store w) → P (store (snd (m faults w))).

(** A property of the conversations table, as a property of the store. *)
Definition on_conversations (P : gmap string Conversation.t → Prop) (s : Store) : Prop :=
  P (conversations_table s).

(** The conversations of [table] have the status and outcome they have in
    [table0]. *)
Definition same_status_and_outcome (table0 table : gmap string Conversation.t) : Prop :=
  ∀ id c, table !! id = Some c →
    ∃ c0, table0 !! id = Some c0 ∧
          Conversation.status c = Conversation.status c0 ∧
          Conversation.outcome c = Conversation.outcome c0.

(** The entries that record a raising call, among the calls [p] selects. *)
Definition raised_call (p : Call → bool) (e : Entry) : bool :=
  match e with Raised c => p c | Returned _ _ => false end.

Definition is_get_item (c : Call) : bool :=
  match c with GetItem _ _ => true | _ => false end.

Definition is_query (c : Call) : bool :=
  match c with Query _ _ => true | _ => false end.

Definition is_put_or_update (c : Call) : bool :=
  match c with PutItem _ _ | UpdateItem _ _ => true | _ => false end.

(** [m] lets the exception of a raising call through: whenever one of the
    calls it makes raises, [m] ends with an exception. *)
Definition strict {A} (m : M A) : Prop :=
  ∀ faults w, ∃ l,
    log (snd (m faults w)) = (log w ++ l)%list ∧
    (existsb raised l = true → fst (m faults w) = Exception).

(** [table'] is [table], or [table] with the item of one key, present in
    [table], replaced: what an [update_item] on a present key does. *)
Definition replaces_present {A} (table table' : gmap string A) : Prop :=
  table' = table ∨
  ∃ key x f, table !! key = Some x ∧ table' = <[key := f x]> table.

(** The schedule under which the k-th call raises, and no other. *)
Definition fails_at (k : nat) : Faults := λ n, Nat.eqb n k.

(** ** A sample session

    A session in the manner of [scripts/test_api.py]: a conversation is
    started, messages are exchanged until offers are made, and an offer is
    resolved; the values the handlers draw are fixed.  The reason is
    [not_using] and the first candidate offer is drawn, so the offers are
    "Pause for 3 Months". *)

Module sample.

Definition post (fields : list (string * string)) : LambdaEvent :=
  {| body := Some (Json (list_to_map fields)); pathParameters := None |}.

Definition start_fields : list (string * string) :=
  [("userId", "test-user-123"); ("subscriptionId", "sub-456");
   ("reason", "not_using"); ("reasonText", "I hardly use it")].

Definition start_env : start_conversation.Env :=
  {| start_conversation.conversation_id := "conv-1";
     start_conversation.message_id := "msg-1";
     start_conversation.timestamp := "2024-05-01T10:00:00Z" |}.

(** The store after the start request: one conversation, one message. *)
Definition started : Store :=
  store (snd (run (start_conversation.handler (post start_fields) start_env)
                  no_faults empty_store)).

Definition message_fields : list (string * string) :=
  [("conversationId", "conv-1"); ("message", "I really can't afford this anymore");
   ("userId", "test-user-123")].

(** The draws of the n-th message request; the random value 1/2 passes
    both thresholds of [should_generate_offer]. *)
Definition message_env (user_id ai_id offer_id time : string) : send_message.Env :=
  {| send_message.user_message_id := user_id;
     send_message.ai_message_id := ai_id;
     send_message.timestamp := time;
     send_message.response_choice := 0;
     send_message.offer_random := 1 # 2;
     send_message.offer_id := offer_id;
     send_message.offer_timestamp := time;
     send_message.expires_at := "2024-05-08T10:00:00Z";
     send_message.offer_choice := 0 |}.

Definition after_message (env : send_message.Env) (s : Store) : Store :=
  store (snd (run (send_message.handler (post message_fields) env) no_faults s)).

(** After the first exchange: three messages, no offer yet. *)
Definition exchanged : Store :=
  after_message (message_env "msg-2" "msg-3" "offer-0" "2024-05-01T10:01:00Z") started.

(** After the second exchange: five messages and the pending offer-1. *)
Definition offered : Store :=
  after_message (message_env "msg-4" "msg-5" "offer-1" "2024-05-01T10:02:00Z") exchanged.

(** After the third exchange: a second pending offer, offer-2. *)
Definition offered_twice : Store :=
  after_message (message_env "msg-6" "msg-7" "offer-2" "2024-05-01T10:03:00Z") offered.

Definition offer_fields (offer_id action user_id : string) : list (string * string) :=
  [("conversationId", "conv-1"); ("offerId", offer_id); ("action", action);
   ("userId", user_id)].

Definition offer_env (message_id time : string) : handle_offer.Env :=
  {| handle_offer.timestamp := time;
     handle_offer.message_choice := 0;
     handle_offer.message_id := message_id |}.

(** After offer-1 is rejected: the conversation is completed and cancelled,
    and offer-2 is still pending. *)
Definition rejected_first : Store :=
  store (snd (run (handle_offer.handler
                     (post (offer_fields "offer-1" "reject" "test-user-123"))
                     (offer_env "msg-8" "2024-05-01T10:04:00Z"))
                  no_faults offered_twice)).

(** The session as a sequence of requests; the last but one is served
    while its second write to the store raises. *)
Definition requests : list (Request * Faults) :=
  [(StartRequest (post start_fields) start_env, no_faults);
   (MessageRequest (post message_fields)
      (message_env "msg-2" "msg-3" "offer-0" "2024-05-01T10:01:00Z"), no_faults);
   (MessageRequest (post message_fields)
      (message_env "msg-4" "msg-5" "offer-1" "2024-05-01T10:02:00Z"), no_faults);
   (ReadRequest {| body := None; pathParameters := Some (Some {[ "id" := "conv-1" ]}) |},
    no_faults);
   (MessageRequest (post message_fields)
      (message_env "msg-6" "msg-7" "offer-2" "2024-05-01T10:03:00Z"), fails_at 2);
   (OfferRequest (post (offer_fields "offer-1" "reject" "test-user-123"))
      (offer_env "msg-8" "2024-05-01T10:04:00Z"), no_faults)].

End sample.

(** ** backend/shared/utils.py *)

Module utils.

(** Validate that all required fields are present.  A field of [data]
    holds a string or [None]. *)
Definition validate_required_fields (data : gmap string (option string))
    (required_fields : list string) : option string :=
  (λ field, "Missing required field: " ++ field) <$>
  List.find (λ field, bool_decide (data !! field = None ∨ data !! field = Some None))
            required_fields.

End utils.

(** ** Notions used by the further properties *)

(** The entries of the log that record a write to a table, made or
    attempted. *)
Definition attempts_write (e : Entry) : bool :=
  match e with Raised c | Returned c _ => is_put_or_update c end.

(** The lowercased message contains one of the trigger words. *)
Definition mentions_trigger (user_message : string) : Prop :=
  ∃ word, word ∈ send_message.trigger_words ∧
          ∃ pre post : string, lower user_message = pre ++ word ++ post.

(** The message ids a request draws. *)
Definition drawn_message_ids (request : Request) : list string :=
  match request with
  | StartRequest _ env => [start_conversation.message_id env]
  | MessageRequest _ env =>
      [send_message.user_message_id env; send_message.ai_message_id env]
  | OfferRequest _ env => [handle_offer.message_id env]
  | ReadRequest _ => []
  end.

(** The answers that blame the request: 400 and 404. *)
Definition client_error (r : Response) : Prop :=
  statusCode r = 400%Z ∨ statusCode r = 404%Z.

(** Every key of [s] is a key of [s'], table by table. *)
Definition keys_kept (s s' : Store) : Prop :=
  dom (conversations_table s) ⊆ dom (conversations_table s') ∧
  dom (messages_table s) ⊆ dom (messages_table s') ∧
  dom (offers_table s) ⊆ dom (offers_table s').

(** The offer id a request draws. *)
Definition drawn_offer_ids (request : Request) : list string :=
  match request with
  | MessageRequest _ env => [send_message.offer_id env]
  | _ => []
  end.

(** The conversation a request writes to, if any: the new one for a start
    request, the one named in the body for a message or offer request. *)
Definition addressed_conversation (request : Request) : option string :=
  match request with
  | StartRequest _ env => Some (start_conversation.conversation_id env)
  | MessageRequest event _ | OfferRequest event _ =>
      match body event with
      | Some (Json fields) => fields !! "conversationId"
      | _ => None
      end
  | ReadRequest _ => None
  end.

(** * Properties *)

(** ** Substrings *)

(** [word] occurs in [text]. *)
Definition substring_of (word text : string) : Prop :=
  ∃ pre post : string, text = pre ++ word ++ post.

Lemma append_String (a : ascii) (s t : string) :
  String a s ++ t = String a (s ++ t).
Proof. reflexivity. Qed.

Lemma append_empty (t : string) : "" ++ t = t.
Proof. reflexivity. Qed.

Lemma prefix_true_iff (word text : string) :
  String.prefix word text = true ↔ ∃ post : string, text = word ++ post.
Proof.
  revert text. induction word as [|a word IH]; intros text.
  - destruct text; split; eauto.
  - destruct text as [|b text]; simpl.
    + split; [discriminate | intros [post H]; discriminate].
    + destruct (ascii_dec a b) as [->|Hne].
      * rewrite IH. split; intros [post H]; exists post;
          rewrite append_String in *; congruence.
      * split; [discriminate | intros [post H]].
        rewrite append_String in H. congruence.
Qed.

Lemma contains_true_iff (word text : string) :
  contains word text = true ↔ substring_of word text.
Proof.
  unfold substring_of. induction text as [|b text IH].
  - cbn [contains]. rewrite orb_false_r, prefix_true_iff. split.
    + intros [post H]. exists "", post. exact H.
    + intros [pre [post H]]. destruct pre; [eauto | discriminate].
  - cbn [contains]. rewrite orb_true_iff, prefix_true_iff, IH. split.
    + intros [[post H] | [pre [post H]]].
      * exists "", post. exact H.
      * exists (String b pre), post. rewrite append_String. congruence.
    + intros [[|c pre] [post H]].
      * left. exists post. exact H.
      * right. exists pre, post. rewrite append_String in H. congruence.
Qed.

Lemma any_in_true_iff (words : list string) (text : string) :
  any_in words text = true ↔ ∃ word, word ∈ words ∧ substring_of word text.
Proof.
  unfold any_in. rewrite existsb_exists. split.
  - intros [word [Hin H]]. exists word. split.
    + by apply list_elem_of_In.
    + by apply contains_true_iff.
  - intros [word [Hin H]]. exists word. split.
    + by apply list_elem_of_In.
    + by apply contains_true_iff.
Qed.

Lemma gt_true_iff (a b : Q) : send_message.gt a b = true ↔ (b < a)%Q.
Proof.
  unfold send_message.gt. rewrite negb_true_iff.
  split.
  - intros H. apply Qnot_le_lt. intros Hle.
    apply Qle_bool_iff in Hle. congruence.
  - intros H. destruct (Qle_bool a b) eqn:E; [|done].
    apply Qle_bool_iff in E. exfalso. by eapply Qlt_not_le.
Qed.

(** ** The responder's pure functions *)

(** For a draw [k / 2^53], as [random.random()] returns them, exceeding the
    double [0.2] is the same as exceeding one fifth. *)
Remark double_0_2_exact (k : Z) :
  (send_message.double_0_2 < k # 9007199254740992)%Q ↔ (1 # 5 < k # 9007199254740992)%Q.
Proof. unfold Qlt, send_message.double_0_2. simpl. lia. Qed.

(** The double [0.4] lies above two fifths: the one draw equal to it
    exceeds two fifths and still does not pass the comparison [> 0.4]. *)
Remark double_0_4_boundary :
  (2 # 5 < send_message.double_0_4)%Q ∧
  send_message.gt send_message.double_0_4 send_message.double_0_4 = false.
Proof. split; reflexivity. Qed.

(** C5: [should_generate_offer] is false whenever the message count is
    below 4, whatever the text; from 4 messages on it is true exactly when
    the draw [r] exceeds 0.2 if the lowercased message contains a trigger
    word, and exactly when [r] exceeds 0.4 if it contains none. *)
Theorem should_generate_offer_spec (message_count : Z) (user_message : string) (r : Q) :
  ((message_count < 4)%Z →
     send_message.should_generate_offer message_count user_message r = false) ∧
  ((4 ≤ message_count)%Z →
     (∃ word, word ∈ send_message.trigger_words ∧
              substring_of word (lower user_message)) →
     (send_message.should_generate_offer message_count user_message r = true
      ↔ (send_message.double_0_2 < r)%Q)) ∧
  ((4 ≤ message_count)%Z →
     ¬ (∃ word, word ∈ send_message.trigger_words ∧
                substring_of word (lower user_message)) →
     (send_message.should_generate_offer message_count user_message r = true
      ↔ (send_message.double_0_4 < r)%Q)).
Proof.
  unfold send_message.should_generate_offer. split; [|split].
  - intros Hlt. apply Z.ltb_lt in Hlt. by rewrite Hlt.
  - intros Hge Hword. apply Z.ltb_ge in Hge. rewrite Hge.
    apply any_in_true_iff in Hword. rewrite Hword. apply gt_true_iff.
  - intros Hge Hnone. apply Z.ltb_ge in Hge. rewrite Hge.
    destruct (any_in _ _) eqn:E.
    + exfalso. apply Hnone. by apply any_in_true_iff.
    + apply gt_true_iff.
Qed.

Lemma should_generate_offer_spec_witness :
  send_message.should_generate_offer 3 "It is too EXPENSIVE" (1 # 2) = false ∧
  send_message.should_generate_offer 4 "It is too EXPENSIVE" (3 # 10) = true ∧
  send_message.should_generate_offer 4 "I am leaving" (3 # 10) = false.
Proof.
  split; [|split].
  - apply (proj1 (should_generate_offer_spec 3 "It is too EXPENSIVE" (1 # 2))). lia.
  - apply (proj1 (proj2 (should_generate_offer_spec 4 "It is too EXPENSIVE" (3 # 10)))).
    + lia.
    + exists "expensive". split.
      * unfold send_message.trigger_words. apply list_elem_of_here.
      * unfold substring_of. exists "it is too ", "". reflexivity.
    + reflexivity.
  - apply not_true_is_false. intros E.
    apply (proj2 (proj2 (should_generate_offer_spec 4 "I am leaving" (3 # 10)))) in E.
    + vm_compute in E. discriminate E.
    + lia.
    + intros Hw. apply any_in_true_iff in Hw. vm_compute in Hw. discriminate Hw.
Defined.

Lemma reason_responses_known (reason_text : string) :
  start_conversation.reason_responses reason_text !! "too_expensive" =
    Some "I understand that cost is a concern. Let me see what special offers I can provide to make this more affordable for you." ∧
  start_conversation.reason_responses reason_text !! "not_using" =
    Some "I hear you - sometimes we sign up for things and don't use them as much as expected. Let me show you some options that might work better." ∧
  start_conversation.reason_responses reason_text !! "technical_issues" =
    Some "I'm sorry you're experiencing technical difficulties. Let me help resolve those issues and see what we can do to improve your experience." ∧
  start_conversation.reason_responses reason_text !! "found_alternative" =
    Some "I understand you've found another option. Before you go, let me show you some exclusive benefits that might change your mind." ∧
  start_conversation.reason_responses reason_text !! "other" =
    Some ("Thank you for sharing that with me: " ++ reason_text ++
          ". I'd like to understand your concerns better and see how we can address them.").
Proof.
  unfold start_conversation.reason_responses. cbn [list_to_map foldr uncurry].
  repeat split; by simplify_map_eq.
Qed.

Lemma reason_responses_unknown (reason reason_text : string) :
  reason ∉ ["too_expensive"; "not_using"; "technical_issues"; "found_alternative"; "other"] →
  start_conversation.reason_responses reason_text !! reason = None.
Proof.
  intros H. unfold start_conversation.reason_responses.
  apply not_elem_of_list_to_map_1. exact H.
Qed.

(** ** The Start Handler *)

Lemma first_missing_None (required_fields : list string) (fields : gmap string string) :
  Forall (λ field, is_Some (fields !! field)) required_fields →
  first_missing required_fields fields = None.
Proof.
  unfold first_missing. induction 1 as [|field l [v Hv] _ IH]; [done|].
  cbn [List.find]. rewrite bool_decide_eq_false_2; [exact IH | by rewrite Hv].
Qed.

(** The three ways a run of the Start Handler on a complete body can go:
    the first write raises, the second write raises, or both are made. *)
Lemma start_handler_run (fields : gmap string string) pp env faults s :
  first_missing start_conversation.required_fields fields = None →
  run (start_conversation.handler
         {| body := Some (Json fields); pathParameters := pp |} env) faults s =
  let c := start_conversation.conversation_item fields env in
  let m := start_conversation.message_item fields env in
  if faults 0 then
    (Value (start_conversation.create_response 500 (Error "Internal server error")),
     {| store := s; log := [Raised (PutItem Conversations (Conversation.id c))] |})
  else if faults 1 then
    (Value (start_conversation.create_response 500 (Error "Internal server error")),
     {| store := with_conversations (insert (Conversation.id c) c) s;
        log := [Returned (PutItem Conversations (Conversation.id c)) 0;
                Raised (PutItem Messages (Message.id m))] |})
  else
    (Value (start_conversation.create_response 200 (StartData c [m])),
     {| store := with_messages (insert (Message.id m) m)
                   (with_conversations (insert (Conversation.id c) c) s);
        log := [Returned (PutItem Conversations (Conversation.id c)) 0;
                Returned (PutItem Messages (Message.id m)) 0] |}).
Proof.
  intros Hreq. unfold run, start_conversation.handler, try_except. cbn [body].
  rewrite Hreq.
  unfold mbind, M_bind, mret, M_ret, conversations_put_item, messages_put_item,
    table_call.
  cbn [log store length app].
  destruct (faults 0); [reflexivity|].
  cbn [log store length app].
  destruct (faults 1); reflexivity.
Qed.

(** C4: a start request that carries userId, subscriptionId, reason and
    reasonText is answered with 200 and a conversation that is active, has
    no outcome, has createdAt equal to updatedAt and comes with exactly one
    message, sent by the AI and attached to the new conversation; the same
    conversation and message are in the store afterwards.  (The two writes
    to the store are taken to succeed.) *)
Theorem start_handler_creates_conversation
    (fields : gmap string string) pp env faults s
    (user_id subscription_id reason reason_text : string) :
  fields !! "userId" = Some user_id →
  fields !! "subscriptionId" = Some subscription_id →
  fields !! "reason" = Some reason →
  fields !! "reasonText" = Some reason_text →
  (∀ n, faults n = false) →
  ∃ conversation message w,
    run (start_conversation.handler
           {| body := Some (Json fields); pathParameters := pp |} env) faults s =
      (Value (start_conversation.create_response 200
                (StartData conversation [message])), w) ∧
    Conversation.status conversation = active ∧
    Conversation.outcome conversation = None ∧
    Conversation.createdAt conversation = Conversation.updatedAt conversation ∧
    Conversation.userId conversation = user_id ∧
    Conversation.subscriptionId conversation = subscription_id ∧
    Conversation.reason conversation = reason ∧
    Conversation.reasonText conversation = reason_text ∧
    Message.sender message = ai ∧
    Message.conversationId message = Conversation.id conversation ∧
    conversations_table (store w) !! Conversation.id conversation = Some conversation ∧
    messages_table (store w) !! Message.id message = Some message.
Proof.
  intros Hu Hs Hr Ht Hquiet.
  eexists _, _, _. split.
  - rewrite start_handler_run.
    + cbn zeta. rewrite !Hquiet. reflexivity.
    + apply first_missing_None. unfold start_conversation.required_fields.
      repeat constructor; eauto.
  - cbn. repeat split;
      try (by apply lookup_total_correct); by rewrite lookup_insert_eq.
Qed.

Lemma start_handler_creates_conversation_witness :
  ∃ conversation message w,
    run (start_conversation.handler (sample.post sample.start_fields) sample.start_env)
        no_faults empty_store =
      (Value (start_conversation.create_response 200
                (StartData conversation [message])), w) ∧
    Conversation.status conversation = active ∧
    Conversation.outcome conversation = None ∧
    Conversation.createdAt conversation = Conversation.updatedAt conversation ∧
    Conversation.userId conversation = "test-user-123" ∧
    Conversation.subscriptionId conversation = "sub-456" ∧
    Conversation.reason conversation = "not_using" ∧
    Conversation.reasonText conversation = "I hardly use it" ∧
    Message.sender message = ai ∧
    Message.conversationId message = Conversation.id conversation ∧
    conversations_table (store w) !! Conversation.id conversation = Some conversation ∧
    messages_table (store w) !! Message.id message = Some message.
Proof.
  apply (start_handler_creates_conversation
           (list_to_map sample.start_fields) None sample.start_env no_faults empty_store);
    reflexivity.
Defined.

(** C9: the initial reply is a function of [reason] and [reasonText]
    alone: the message a successful start request returns has the text
    [generate_initial_message reason reasonText], whatever the store, the
    ids, the clock and the other fields are; and for the reason [other], as
    for every reason outside the known ones, that text contains
    [reasonText] verbatim. *)
Theorem generate_initial_message_deterministic :
  (∀ (fields : gmap string string) pp env faults s response w,
     run (start_conversation.handler
            {| body := Some (Json fields); pathParameters := pp |} env) faults s =
       (Value response, w) →
     statusCode response = 200%Z →
     ∃ conversation message,
       payload response = StartData conversation [message] ∧
       Message.content message =
         start_conversation.generate_initial_message
           (fields !!! "reason") (fields !!! "reasonText")) ∧
  (∀ reason_text,
     start_conversation.generate_initial_message "too_expensive" reason_text =
       "I understand that cost is a concern. Let me see what special offers I can provide to make this more affordable for you." ∧
     start_conversation.generate_initial_message "not_using" reason_text =
       "I hear you - sometimes we sign up for things and don't use them as much as expected. Let me show you some options that might work better." ∧
     start_conversation.generate_initial_message "technical_issues" reason_text =
       "I'm sorry you're experiencing technical difficulties. Let me help resolve those issues and see what we can do to improve your experience." ∧
     start_conversation.generate_initial_message "found_alternative" reason_text =
       "I understand you've found another option. Before you go, let me show you some exclusive benefits that might change your mind.") ∧
  (∀ reason reason_text,
     reason = "other" ∨
     reason ∉ ["too_expensive"; "not_using"; "technical_issues"; "found_alternative"; "other"] →
     substring_of reason_text
       (start_conversation.generate_initial_message reason reason_text)).
Proof.
  split; [|split].
  - intros fields pp env faults s response w Hrun Hcode.
    destruct (first_missing start_conversation.required_fields fields) as [field|] eqn:Hreq.
    + unfold run, start_conversation.handler, try_except in Hrun.
      cbn [body] in Hrun. rewrite Hreq in Hrun.
      injection Hrun as <- _. discriminate Hcode.
    + rewrite start_handler_run in Hrun by done. cbn zeta in Hrun.
      destruct (faults 0); [injection Hrun as <- _; discriminate Hcode|].
      destruct (faults 1); [injection Hrun as <- _; discriminate Hcode|].
      injection Hrun as <- _. eexists _, _. split; reflexivity.
  - intros reason_text. unfold start_conversation.generate_initial_message.
    destruct (reason_responses_known reason_text) as (-> & -> & -> & -> & _).
    repeat split.
  - intros reason reason_text [-> | Hunknown];
      unfold start_conversation.generate_initial_message, substring_of.
    + destruct (reason_responses_known reason_text) as (_ & _ & _ & _ & ->).
      eexists _, _. reflexivity.
    + rewrite reason_responses_unknown by done.
      eexists _, _. reflexivity.
Qed.

(** ** Rules for properties a computation preserves *)

Section preserves.
Context (P : Store → Prop).

Lemma preserves_mret {A} (a : A) : preserves P (mret a).
Proof. intros faults w H. exact H. Qed.

Lemma preserves_raise {A} : preserves P (λ _ w, (@Exception A, w)).
Proof. intros faults w H. exact H. Qed.

Lemma preserves_bind {A B} (m : M A) (k : A → M B) :
  preserves P m → (∀ a, preserves P (k a)) → preserves P (m ≫= k).
Proof.
  intros Hm Hk faults w H. unfold mbind, M_bind.
  specialize (Hm faults w H).
  destruct (m faults w) as [[a|] w']; [by apply Hk | exact Hm].
Qed.

Lemma preserves_try_except {A} (body handler : M A) :
  preserves P body → preserves P handler → preserves P (try_except body handler).
Proof.
  intros Hb Hh faults w H. unfold try_except.
  specialize (Hb faults w H).
  destruct (body faults w) as [[a|] w']; [exact Hb | by apply Hh].
Qed.

Lemma preserves_table_call {A} (c : Call) (Count : A → nat) (f : Store → A * Store) :
  (∀ s, P s → P (snd (f s))) → preserves P (table_call c Count f).
Proof.
  intros Hf faults w H. unfold table_call.
  destruct (faults _); [exact H|].
  specialize (Hf _ H). by destruct (f (store w)).
Qed.
End preserves.

(** One step of a proof that a handler preserves a property: a rule for
    the head of the computation, or a case analysis on what it branches on. *)
Ltac preserves_step :=
  lazymatch goal with
  | |- preserves _ (mret _) => apply preserves_mret
  | |- preserves _ (_ ≫= _) => apply preserves_bind; [|intros ?]
  | |- preserves _ (try_except _ _) => apply preserves_try_except
  | |- preserves _ (table_call _ _ _) => apply preserves_table_call; intros ? ?
  | |- preserves _ (match ?x with _ => _ end) => destruct x
  | |- preserves _ (λ _ w, (Exception, w)) => apply preserves_raise
  end.

Section conversations.
Context (P : gmap string Conversation.t → Prop).

Lemma start_handler_preserves event env :
  (∀ table c, P table →
     Conversation.status c = active → Conversation.outcome c = None →
     P (<[Conversation.id c := c]> table)) →
  preserves (on_conversations P) (start_conversation.handler event env).
Proof.
  intros Hput. unfold start_conversation.handler.
  unfold conversations_put_item, messages_put_item.
  repeat preserves_step; try assumption.
  by apply Hput.
Qed.

Lemma message_handler_preserves event env :
  (∀ table key timestamp, P table →
     P (alter (send_message.set_updatedAt timestamp) key table)) →
  preserves (on_conversations P) (send_message.handler event env).
Proof.
  intros Htouch.
  unfold send_message.handler, send_message.get_conversation,
    send_message.get_message_count, send_message.maybe_offer,
    send_message.generate_retention_offer.
  unfold conversations_get_item, conversations_update_item, messages_put_item,
    messages_query, offers_put_item.
  cbv zeta.
  repeat preserves_step; try assumption.
  by apply Htouch.
Qed.

Lemma offer_handler_preserves event env :
  (∀ table key outcome timestamp, P table →
     P (alter (handle_offer.set_conversation_outcome completed outcome timestamp)
              key table)) →
  preserves (on_conversations P) (handle_offer.handler event env).
Proof.
  intros Hclose.
  unfold handle_offer.handler.
  unfold conversations_get_item, conversations_update_item, messages_put_item,
    offers_get_item, offers_update_item.
  cbv zeta.
  repeat preserves_step; try assumption.
  by apply Hclose.
Qed.

Lemma read_handler_preserves event :
  preserves (on_conversations P) (get_conversation.handler event).
Proof.
  unfold get_conversation.handler.
  unfold conversations_get_item, messages_query, offers_query.
  repeat preserves_step; assumption.
Qed.
End conversations.

(** ** The conversation invariant *)

Lemma same_status_and_outcome_refl (table : gmap string Conversation.t) : same_status_and_outcome table table.
Proof. intros id c H. eauto. Qed.

Lemma same_status_and_outcome_touch (table0 table : gmap string Conversation.t)
    key timestamp :
  same_status_and_outcome table0 table →
  same_status_and_outcome table0 (alter (send_message.set_updatedAt timestamp) key table).
Proof.
  intros H id c. rewrite lookup_alter. case_decide as Hid; [|by apply H].
  destruct (table !! key) as [c1|] eqn:Hc1; [|done].
  intros [= <-]. subst id. destruct (H _ _ Hc1) as (c0 & ? & ? & ?). eauto.
Qed.

Lemma invariant_put (table : gmap string Conversation.t) c :
  map_Forall (λ _ c, outcome_null_iff_active c) table →
  Conversation.status c = active → Conversation.outcome c = None →
  map_Forall (λ _ c, outcome_null_iff_active c) (<[Conversation.id c := c]> table).
Proof.
  intros H Hs Ho. apply map_Forall_insert_2; [|done].
  unfold outcome_null_iff_active. by rewrite Hs, Ho.
Qed.

Lemma invariant_touch (table : gmap string Conversation.t) key timestamp :
  map_Forall (λ _ c, outcome_null_iff_active c) table →
  map_Forall (λ _ c, outcome_null_iff_active c)
    (alter (send_message.set_updatedAt timestamp) key table).
Proof.
  intros H id c. rewrite lookup_alter. case_decide; [|by apply H].
  destruct (table !! key) as [c1|] eqn:Hc1; [|done].
  intros [= <-]. exact (H _ _ Hc1).
Qed.

Lemma invariant_close_out (table : gmap string Conversation.t) key outcome timestamp :
  map_Forall (λ _ c, outcome_null_iff_active c) table →
  map_Forall (λ _ c, outcome_null_iff_active c)
    (alter (handle_offer.set_conversation_outcome completed outcome timestamp) key table).
Proof.
  intros H id c. rewrite lookup_alter. case_decide; [|by apply H].
  destruct (table !! key) as [c1|] eqn:Hc1; [|done].
  intros [= <-]. unfold outcome_null_iff_active. by cbn.
Qed.

Lemma handle_preserves_invariant request : preserves store_invariant (handle request).
Proof.
  change store_invariant
    with (on_conversations (map_Forall (λ _ c, outcome_null_iff_active c))).
  destruct request as [event env|event env|event env|event]; cbn [handle].
  - apply start_handler_preserves. apply invariant_put.
  - apply message_handler_preserves. intros; by apply invariant_touch.
  - apply offer_handler_preserves. intros; by apply invariant_close_out.
  - apply read_handler_preserves.
Qed.

(** C2: [outcome] is null if and only if [status = active], for every
    conversation record the four handlers can produce: the invariant holds
    in the store reached from the empty store by any sequence of requests,
    each under any schedule of store failures, because every request
    preserves it; the Message Handler and the Read Handler leave the status
    and outcome of every conversation as they were. *)
Theorem conversation_invariant :
  (∀ requests, store_invariant (serve_all requests empty_store)) ∧
  (∀ s request, store_invariant s → store_invariant (serve s request)) ∧
  (∀ event env faults s,
     same_status_and_outcome (conversations_table s)
       (conversations_table
          (store (snd (run (send_message.handler event env) faults s))))) ∧
  (∀ event faults s,
     same_status_and_outcome (conversations_table s)
       (conversations_table
          (store (snd (run (get_conversation.handler event) faults s))))).
Proof.
  assert (Hstep : ∀ s request, store_invariant s → store_invariant (serve s request)).
  { intros s [request faults] H. unfold serve, run. cbn [fst snd].
    by apply handle_preserves_invariant. }
  split; [|split; [exact Hstep|split]].
  - intros requests. unfold serve_all.
    assert (Hempty : store_invariant empty_store) by apply map_Forall_empty.
    revert Hempty. generalize empty_store.
    induction requests as [|request requests IH]; intros s Hs; [exact Hs|].
    cbn [foldl]. apply IH. by apply Hstep.
  - intros event env faults s. unfold run.
    apply (message_handler_preserves
             (same_status_and_outcome (conversations_table s)) event env).
    + intros table key timestamp. apply same_status_and_outcome_touch.
    + apply same_status_and_outcome_refl.
  - intros event faults s. unfold run.
    apply (read_handler_preserves
             (same_status_and_outcome (conversations_table s)) event).
    apply same_status_and_outcome_refl.
Qed.

(** ** The Offer Handler *)

(** Unfolding the table calls of a run, up to the next choice of the
    fault schedule. *)
Ltac run_calls :=
  unfold mbind, M_bind, mret, M_ret, try_except,
    conversations_get_item, conversations_put_item, conversations_update_item,
    messages_put_item, messages_query,
    offers_get_item, offers_put_item, offers_update_item, offers_query,
    table_call;
  cbn [log store length app fst snd].

(** The same when no call raises, [Hquiet] saying so of the schedule. *)
Ltac quiet_calls Hquiet :=
  repeat (rewrite Hquiet; cbn [log store length app fst snd found]).

(** A request from the owner of the conversation, about a pending offer of
    that conversation: the offer is resolved, the conversation is closed
    and the closing message is appended. *)
Lemma offer_handler_resolves (fields : gmap string string) pp env faults s
    (conversation_id offer_id action user_id : string)
    (conversation : Conversation.t) (offer : Offer.t) :
  fields !! "conversationId" = Some conversation_id →
  fields !! "offerId" = Some offer_id →
  fields !! "action" = Some action →
  fields !! "userId" = Some user_id →
  action = "accept" ∨ action = "reject" →
  conversations_table s !! conversation_id = Some conversation →
  Conversation.userId conversation = user_id →
  offers_table s !! offer_id = Some offer →
  Offer.conversationId offer = conversation_id →
  Offer.status offer = pending →
  (∀ n, faults n = false) →
  run (handle_offer.handler
         {| body := Some (Json fields); pathParameters := pp |} env) faults s =
  let message := handle_offer.final_message_item conversation_id action offer env in
  (Value (handle_offer.create_response 200
            (OfferData (handle_offer.outcome_of action) message)),
   {| store :=
        with_messages (insert (Message.id message) message)
          (with_conversations
             (alter (handle_offer.set_conversation_outcome completed
                       (handle_offer.outcome_of action) (handle_offer.timestamp env))
                    conversation_id)
             (with_offers
                (alter (handle_offer.set_offer_status
                          (handle_offer.offer_status_of action)
                          (handle_offer.timestamp env))
                       offer_id) s));
      log := [Returned (GetItem Conversations conversation_id) 1;
              Returned (GetItem Offers offer_id) 1;
              Returned (UpdateItem Offers offer_id) 0;
              Returned (UpdateItem Conversations conversation_id) 0;
              Returned (PutItem Messages (Message.id message)) 0] |}).
Proof.
  intros Hc Ho Ha Hu Haction Hconv Howner Hoffer Hof Hpending Hquiet.
  unfold run, handle_offer.handler. cbn [body].
  rewrite first_missing_None
    by (unfold handle_offer.required_fields; repeat constructor; eauto).
  rewrite (lookup_total_correct _ _ _ Hc), (lookup_total_correct _ _ _ Ho),
    (lookup_total_correct _ _ _ Ha), (lookup_total_correct _ _ _ Hu).
  cbv zeta.
  replace (negb (String.eqb action "accept" || String.eqb action "reject")) with false
    by (by destruct Haction as [-> | ->]).
  run_calls. quiet_calls Hquiet.
  rewrite Hconv. cbn [found].
  rewrite bool_decide_eq_false_2 by (intros Hne; by apply Hne).
  quiet_calls Hquiet. rewrite Hoffer.
  rewrite bool_decide_eq_false_2 by (intros Hne; by apply Hne).
  rewrite bool_decide_eq_false_2 by (intros Hne; by apply Hne).
  quiet_calls Hquiet. reflexivity.
Qed.

(** A request from the owner about an offer of the conversation that is
    not pending any more: 400, and nothing is written. *)
Lemma offer_handler_unavailable (fields : gmap string string) pp env faults s
    (conversation_id offer_id action user_id : string)
    (conversation : Conversation.t) (offer : Offer.t) :
  fields !! "conversationId" = Some conversation_id →
  fields !! "offerId" = Some offer_id →
  fields !! "action" = Some action →
  fields !! "userId" = Some user_id →
  action = "accept" ∨ action = "reject" →
  conversations_table s !! conversation_id = Some conversation →
  Conversation.userId conversation = user_id →
  offers_table s !! offer_id = Some offer →
  Offer.conversationId offer = conversation_id →
  Offer.status offer ≠ pending →
  (∀ n, faults n = false) →
  run (handle_offer.handler
         {| body := Some (Json fields); pathParameters := pp |} env) faults s =
  (Value (handle_offer.create_response 400 (Error "Offer is no longer available")),
   {| store := s;
      log := [Returned (GetItem Conversations conversation_id) 1;
              Returned (GetItem Offers offer_id) 1] |}).
Proof.
  intros Hc Ho Ha Hu Haction Hconv Howner Hoffer Hof Hpending Hquiet.
  unfold run, handle_offer.handler. cbn [body].
  rewrite first_missing_None
    by (unfold handle_offer.required_fields; repeat constructor; eauto).
  rewrite (lookup_total_correct _ _ _ Hc), (lookup_total_correct _ _ _ Ho),
    (lookup_total_correct _ _ _ Ha), (lookup_total_correct _ _ _ Hu).
  cbv zeta.
  replace (negb (String.eqb action "accept" || String.eqb action "reject")) with false
    by (by destruct Haction as [-> | ->]).
  run_calls. quiet_calls Hquiet.
  rewrite Hconv. cbn [found].
  rewrite bool_decide_eq_false_2 by (intros Hne; by apply Hne).
  quiet_calls Hquiet. rewrite Hoffer.
  rewrite bool_decide_eq_false_2 by (intros Hne; by apply Hne).
  rewrite bool_decide_eq_true_2 by done.
  reflexivity.
Qed.

(** C3: two accept calls on the same pending offer, one after the other,
    by the owner of the conversation the offer belongs to: the first is
    answered with 200 and outcome retained, marks the offer accepted and
    the conversation completed and retained; the second is answered with
    400 "Offer is no longer available" and leaves the store as the first
    call left it.  (Store calls are taken to succeed.) *)
Theorem accept_twice (fields : gmap string string) pp1 pp2 env1 env2 faults1 faults2 s
    (conversation_id offer_id user_id : string)
    (conversation : Conversation.t) (offer : Offer.t) :
  fields !! "conversationId" = Some conversation_id →
  fields !! "offerId" = Some offer_id →
  fields !! "action" = Some "accept" →
  fields !! "userId" = Some user_id →
  conversations_table s !! conversation_id = Some conversation →
  Conversation.userId conversation = user_id →
  offers_table s !! offer_id = Some offer →
  Offer.conversationId offer = conversation_id →
  Offer.status offer = pending →
  (∀ n, faults1 n = false) →
  (∀ n, faults2 n = false) →
  ∃ message s1 log1 log2 offer1 conversation1,
    run (handle_offer.handler
           {| body := Some (Json fields); pathParameters := pp1 |} env1) faults1 s =
      (Value (handle_offer.create_response 200 (OfferData retained message)),
       {| store := s1; log := log1 |}) ∧
    offers_table s1 !! offer_id = Some offer1 ∧
    Offer.status offer1 = accepted ∧
    conversations_table s1 !! conversation_id = Some conversation1 ∧
    Conversation.status conversation1 = completed ∧
    Conversation.outcome conversation1 = Some retained ∧
    run (handle_offer.handler
           {| body := Some (Json fields); pathParameters := pp2 |} env2) faults2 s1 =
      (Value (handle_offer.create_response 400 (Error "Offer is no longer available")),
       {| store := s1; log := log2 |}).
Proof.
  intros Hc Ho Ha Hu Hconv Howner Hoffer Hof Hpending Hquiet1 Hquiet2.
  eexists _, _, _, _,
    (handle_offer.set_offer_status accepted (handle_offer.timestamp env1) offer),
    (handle_offer.set_conversation_outcome completed retained
       (handle_offer.timestamp env1) conversation).
  assert (Hoffer1 :
    alter (handle_offer.set_offer_status accepted (handle_offer.timestamp env1))
      offer_id (offers_table s) !! offer_id =
    Some (handle_offer.set_offer_status accepted (handle_offer.timestamp env1) offer))
    by (by rewrite lookup_alter_eq, Hoffer).
  assert (Hconv1 :
    alter (handle_offer.set_conversation_outcome completed retained
             (handle_offer.timestamp env1))
      conversation_id (conversations_table s) !! conversation_id =
    Some (handle_offer.set_conversation_outcome completed retained
            (handle_offer.timestamp env1) conversation))
    by (by rewrite lookup_alter_eq, Hconv).
  split; [|repeat split].
  - erewrite offer_handler_resolves by eauto. reflexivity.
  - exact Hoffer1.
  - exact Hconv1.
  - eapply offer_handler_unavailable; eauto.
Qed.

Lemma accept_twice_witness :
  ∃ message s1 log1 log2 offer1 conversation1,
    run (handle_offer.handler
           (sample.post (sample.offer_fields "offer-1" "accept" "test-user-123"))
           (sample.offer_env "msg-6" "2024-05-01T10:03:00Z")) no_faults sample.offered =
      (Value (handle_offer.create_response 200 (OfferData retained message)),
       {| store := s1; log := log1 |}) ∧
    offers_table s1 !! "offer-1" = Some offer1 ∧
    Offer.status offer1 = accepted ∧
    conversations_table s1 !! "conv-1" = Some conversation1 ∧
    Conversation.status conversation1 = completed ∧
    Conversation.outcome conversation1 = Some retained ∧
    run (handle_offer.handler
           (sample.post (sample.offer_fields "offer-1" "accept" "test-user-123"))
           (sample.offer_env "msg-7" "2024-05-01T10:03:01Z")) no_faults s1 =
      (Value (handle_offer.create_response 400 (Error "Offer is no longer available")),
       {| store := s1; log := log2 |}).
Proof.
  eapply (accept_twice
            (list_to_map (sample.offer_fields "offer-1" "accept" "test-user-123"))
            None None _ _ no_faults no_faults sample.offered
            "conv-1" "offer-1" "test-user-123");
    reflexivity.
Defined.

(** C10: the Offer Handler does not look at the status of the
    conversation: when the conversation is already completed and one of
    its offers is still pending, an accept or reject request of the owner
    for that offer is answered with 200, and the conversation's status and
    outcome are written again, the outcome being the one of this request.
    (Store calls are taken to succeed.) *)
Theorem offer_handler_ignores_conversation_status
    (fields : gmap string string) pp env faults s
    (conversation_id offer_id action user_id : string)
    (conversation : Conversation.t) (offer : Offer.t) :
  fields !! "conversationId" = Some conversation_id →
  fields !! "offerId" = Some offer_id →
  fields !! "action" = Some action →
  fields !! "userId" = Some user_id →
  action = "accept" ∨ action = "reject" →
  conversations_table s !! conversation_id = Some conversation →
  Conversation.userId conversation = user_id →
  Conversation.status conversation = completed →
  offers_table s !! offer_id = Some offer →
  Offer.conversationId offer = conversation_id →
  Offer.status offer = pending →
  (∀ n, faults n = false) →
  ∃ message w conversation',
    run (handle_offer.handler
           {| body := Some (Json fields); pathParameters := pp |} env) faults s =
      (Value (handle_offer.create_response 200
                (OfferData (handle_offer.outcome_of action) message)), w) ∧
    conversations_table (store w) !! conversation_id = Some conversation' ∧
    Conversation.status conversation' = completed ∧
    Conversation.outcome conversation' = Some (handle_offer.outcome_of action) ∧
    Conversation.updatedAt conversation' = handle_offer.timestamp env ∧
    (action = "accept" → handle_offer.outcome_of action = retained) ∧
    (action = "reject" → handle_offer.outcome_of action = cancelled).
Proof.
  intros Hc Ho Ha Hu Haction Hconv Howner Hcompleted Hoffer Hof Hpending Hquiet.
  eexists _, _,
    (handle_offer.set_conversation_outcome completed (handle_offer.outcome_of action)
       (handle_offer.timestamp env) conversation).
  split; [|repeat split].
  - erewrite offer_handler_resolves by eauto. reflexivity.
  - cbn. by rewrite lookup_alter_eq, Hconv.
  - by intros ->.
  - by intros ->.
Qed.

Lemma offer_handler_ignores_conversation_status_witness :
  (∃ conversation,
     conversations_table sample.rejected_first !! "conv-1" = Some conversation ∧
     Conversation.status conversation = completed ∧
     Conversation.outcome conversation = Some cancelled) ∧
  ∃ message w conversation',
    run (handle_offer.handler
           (sample.post (sample.offer_fields "offer-2" "accept" "test-user-123"))
           (sample.offer_env "msg-9" "2024-05-01T10:05:00Z"))
        no_faults sample.rejected_first =
      (Value (handle_offer.create_response 200
                (OfferData (handle_offer.outcome_of "accept") message)), w) ∧
    conversations_table (store w) !! "conv-1" = Some conversation' ∧
    Conversation.status conversation' = completed ∧
    Conversation.outcome conversation' = Some (handle_offer.outcome_of "accept") ∧
    Conversation.updatedAt conversation' = "2024-05-01T10:05:00Z" ∧
    ("accept" = "accept" → handle_offer.outcome_of "accept" = retained) ∧
    ("accept" = "reject" → handle_offer.outcome_of "accept" = cancelled).
Proof.
  split.
  - eexists. split; [vm_compute; reflexivity|]. split; reflexivity.
  - eapply (offer_handler_ignores_conversation_status
              (list_to_map (sample.offer_fields "offer-2" "accept" "test-user-123"))
              None (sample.offer_env "msg-9" "2024-05-01T10:05:00Z")
              no_faults sample.rejected_first
              "conv-1" "offer-2" "accept" "test-user-123");
      try reflexivity.
    left. reflexivity.
Defined.

(** ** The Message Handler *)

(** The conversation lookup finds nothing the caller owns: 404, whether
    the lookup raised, found no item or found the item of another user;
    nothing is written. *)
Lemma message_handler_not_found (fields : gmap string string) pp env faults s
    (conversation_id user_message user_id : string) :
  fields !! "conversationId" = Some conversation_id →
  fields !! "message" = Some user_message →
  fields !! "userId" = Some user_id →
  faults 0 = true ∨
  (∀ c, conversations_table s !! conversation_id = Some c →
        Conversation.userId c ≠ user_id) →
  run (send_message.handler
         {| body := Some (Json fields); pathParameters := pp |} env) faults s =
  (Value (send_message.create_response 404 (Error "Conversation not found")),
   {| store := s;
      log := [if faults 0 then Raised (GetItem Conversations conversation_id)
              else Returned (GetItem Conversations conversation_id)
                     (found (conversations_table s !! conversation_id))] |}).
Proof.
  intros Hc Hm Hu Hnone.
  unfold run, send_message.handler, send_message.get_conversation. cbn [body].
  rewrite first_missing_None
    by (unfold send_message.required_fields; repeat constructor; eauto).
  rewrite (lookup_total_correct _ _ _ Hc), (lookup_total_correct _ _ _ Hm),
    (lookup_total_correct _ _ _ Hu).
  cbv zeta. run_calls.
  destruct (faults 0) eqn:F0; [reflexivity|].
  destruct Hnone as [|Hnone]; [discriminate|].
  destruct (conversations_table s !! conversation_id) as [c|]; [|reflexivity].
  rewrite bool_decide_eq_false_2 by (by apply Hnone). reflexivity.
Qed.

(** The runs of the Message Handler for the owner of the conversation,
    the lookup having returned: each later call to a table either raises,
    which ends the request with 500 unless the call is the count query, or
    is made. *)
Lemma message_handler_run (fields : gmap string string) pp env faults s
    (conversation_id user_message user_id : string) (conversation : Conversation.t) :
  fields !! "conversationId" = Some conversation_id →
  fields !! "message" = Some user_message →
  fields !! "userId" = Some user_id →
  conversations_table s !! conversation_id = Some conversation →
  Conversation.userId conversation = user_id →
  faults 0 = false →
  run (send_message.handler
         {| body := Some (Json fields); pathParameters := pp |} env) faults s =
  let um := send_message.user_message_item conversation_id user_message env in
  let am := send_message.ai_message_item conversation_id
              (send_message.generate_ai_response user_message conversation
                 (send_message.response_choice env)) env in
  let offer := send_message.retention_offer conversation_id conversation env in
  let touch : gmap string Conversation.t → gmap string Conversation.t :=
    alter (send_message.set_updatedAt (send_message.timestamp env)) conversation_id in
  let error := Value (send_message.create_response 500 (Error "Internal server error")) in
  let s1 := with_messages (insert (Message.id um) um) s in
  let s2 := with_messages (insert (Message.id am) am) s1 in
  let Items := messages_of conversation_id (messages_table s2) in
  let l0 := [Returned (GetItem Conversations conversation_id) 1] in
  if faults 1 then
    (error, {| store := s; log := l0 ++ [Raised (PutItem Messages (Message.id um))] |})
  else if faults 2 then
    (error, {| store := s1;
               log := l0 ++ [Returned (PutItem Messages (Message.id um)) 0;
                             Raised (PutItem Messages (Message.id am))] |})
  else
    let message_count := if faults 3 then 0%Z else Z.of_nat (length Items) in
    let l3 := (l0 ++ [Returned (PutItem Messages (Message.id um)) 0;
                      Returned (PutItem Messages (Message.id am)) 0;
                      if faults 3 then Raised (Query Messages conversation_id)
                      else Returned (Query Messages conversation_id) (length Items)])%list in
    if send_message.should_generate_offer message_count user_message
         (send_message.offer_random env)
    then
      if faults 4 then
        (error, {| store := s2; log := l3 ++ [Raised (PutItem Offers (Offer.id offer))] |})
      else if faults 5 then
        (error, {| store := with_offers (insert (Offer.id offer) offer) s2;
                   log := l3 ++ [Returned (PutItem Offers (Offer.id offer)) 0;
                                 Raised (UpdateItem Conversations conversation_id)] |})
      else
        (Value (send_message.create_response 200 (MessageData am (Some offer))),
         {| store := with_conversations touch
                       (with_offers (insert (Offer.id offer) offer) s2);
            log := l3 ++ [Returned (PutItem Offers (Offer.id offer)) 0;
                          Returned (UpdateItem Conversations conversation_id) 0] |})
    else
      if faults 4 then
        (error, {| store := s2;
                   log := l3 ++ [Raised (UpdateItem Conversations conversation_id)] |})
      else
        (Value (send_message.create_response 200 (MessageData am None)),
         {| store := with_conversations touch s2;
            log := l3 ++ [Returned (UpdateItem Conversations conversation_id) 0] |}).
Proof.
  intros Hc Hm Hu Hconv Howner F0.
  unfold run, send_message.handler, send_message.get_conversation,
    send_message.get_message_count, send_message.maybe_offer,
    send_message.generate_retention_offer. cbn [body].
  rewrite first_missing_None
    by (unfold send_message.required_fields; repeat constructor; eauto).
  rewrite (lookup_total_correct _ _ _ Hc), (lookup_total_correct _ _ _ Hm),
    (lookup_total_correct _ _ _ Hu).
  cbv zeta. run_calls.
  rewrite F0, Hconv. cbn [found].
  rewrite bool_decide_eq_true_2 by done.
  cbn [log store length app fst snd].
  destruct (faults 1); [reflexivity|]. cbn [log store length app fst snd].
  destruct (faults 2); [reflexivity|]. cbn [log store length app fst snd].
  destruct (faults 3); cbn [log store length app fst snd];
    destruct (send_message.should_generate_offer _ _ _);
    unfold mbind, M_bind, mret, M_ret, table_call;
    cbn [log store length app fst snd];
    (destruct (faults 4); [reflexivity|]);
    cbn [log store length app fst snd];
    try reflexivity;
    destruct (faults 5); reflexivity.
Qed.

(** A message written under a fresh id adds one to the count of its
    conversation. *)
Lemma messages_of_insert_fresh (conversation_id : string)
    (table : gmap string Message.t) (m : Message.t) :
  table !! Message.id m = None →
  Message.conversationId m = conversation_id →
  length (messages_of conversation_id (<[Message.id m := m]> table)) =
  S (length (messages_of conversation_id table)).
Proof.
  intros Hfresh Hconv. unfold messages_of.
  rewrite !merge_sort_Permutation.
  rewrite map_to_list_insert by done.
  rewrite fmap_cons. cbn [snd].
  by rewrite filter_cons_True.
Qed.

(** C1, as the code has it: the count given to [should_generate_offer] is
    taken after the two messages of the request are written.  In every
    request answered with 200 whose two message ids are new, the count
    query comes after the two writes and returns the count from before the
    request plus 2, and an offer is returned exactly when
    [should_generate_offer] is true of that count; if the query raises,
    the count is 0 and no offer is returned. *)
Theorem message_count_includes_current_exchange
    (fields : gmap string string) pp env faults s response w
    (conversation_id user_message user_id : string) (conversation : Conversation.t) :
  fields !! "conversationId" = Some conversation_id →
  fields !! "message" = Some user_message →
  fields !! "userId" = Some user_id →
  conversations_table s !! conversation_id = Some conversation →
  Conversation.userId conversation = user_id →
  messages_table s !! send_message.user_message_id env = None →
  messages_table s !! send_message.ai_message_id env = None →
  send_message.user_message_id env ≠ send_message.ai_message_id env →
  run (send_message.handler
         {| body := Some (Json fields); pathParameters := pp |} env) faults s =
    (Value response, w) →
  statusCode response = 200%Z →
  let before := length (messages_of conversation_id (messages_table s)) in
  ∃ message offer query (rest : list Entry),
    payload response = MessageData message offer ∧
    log w = ([Returned (GetItem Conversations conversation_id) 1;
              Returned (PutItem Messages (send_message.user_message_id env)) 0;
              Returned (PutItem Messages (send_message.ai_message_id env)) 0;
              query] ++ rest)%list ∧
    ((query = Returned (Query Messages conversation_id) (before + 2) ∧
      (is_Some offer ↔
       send_message.should_generate_offer (Z.of_nat (before + 2)) user_message
         (send_message.offer_random env) = true))
     ∨ (query = Raised (Query Messages conversation_id) ∧ offer = None)).
Proof.
  intros Hc Hm Hu Hconv Howner Hfresh1 Hfresh2 Hne Hrun Hcode before.
  destruct (faults 0) eqn:F0.
  { rewrite (message_handler_not_found _ _ _ _ _ _ _ _ Hc Hm Hu) in Hrun by auto.
    injection Hrun as <- _. discriminate Hcode. }
  rewrite (message_handler_run _ _ _ _ _ _ _ _ _ Hc Hm Hu Hconv Howner F0) in Hrun.
  cbv zeta in Hrun.
  set (um := send_message.user_message_item conversation_id user_message env) in *.
  set (am := send_message.ai_message_item conversation_id _ env) in *.
  assert (Hcount :
    length (messages_of conversation_id
              (messages_table
                 (with_messages (insert (Message.id am) am)
                    (with_messages (insert (Message.id um) um) s)))) = before + 2).
  { cbn [messages_table with_messages].
    rewrite messages_of_insert_fresh; [|by rewrite lookup_insert_ne|done].
    rewrite messages_of_insert_fresh by done. unfold before. lia. }
  rewrite Hcount in Hrun.
  destruct (faults 1); [injection Hrun as <- _; discriminate Hcode|].
  destruct (faults 2); [injection Hrun as <- _; discriminate Hcode|].
  destruct (faults 3).
  - (* the count query raised: the count is 0 *)
    cbn in Hrun. destruct (faults 4); [injection Hrun as <- _; discriminate Hcode|].
    injection Hrun as <- <-. eexists _, _, _, _. split; [reflexivity|].
    split; [reflexivity|]. by right.
  - destruct (send_message.should_generate_offer _ _ _) eqn:Hoffer.
    + destruct (faults 4); [injection Hrun as <- _; discriminate Hcode|].
      destruct (faults 5); [injection Hrun as <- _; discriminate Hcode|].
      injection Hrun as <- <-. eexists _, _, _, _. split; [reflexivity|].
      split; [reflexivity|]. left. split; [reflexivity|]. by split.
    + destruct (faults 4); [injection Hrun as <- _; discriminate Hcode|].
      injection Hrun as <- <-. eexists _, _, _, _. split; [reflexivity|].
      split; [reflexivity|]. left. split; [reflexivity|].
      split; [by intros [? ?] | discriminate].
Qed.

Lemma message_count_includes_current_exchange_witness :
  ∃ response w,
    run (send_message.handler (sample.post sample.message_fields)
           (sample.message_env "msg-4" "msg-5" "offer-1" "2024-05-01T10:02:00Z"))
        no_faults sample.exchanged = (Value response, w) ∧
    ∃ message offer query (rest : list Entry),
      payload response = MessageData message offer ∧
      log w = ([Returned (GetItem Conversations "conv-1") 1;
                Returned (PutItem Messages "msg-4") 0;
                Returned (PutItem Messages "msg-5") 0;
                query] ++ rest)%list ∧
      ((query = Returned (Query Messages "conv-1")
                  (length (messages_of "conv-1" (messages_table sample.exchanged)) + 2) ∧
        (is_Some offer ↔
         send_message.should_generate_offer
           (Z.of_nat (length (messages_of "conv-1" (messages_table sample.exchanged)) + 2))
           "I really can't afford this anymore" (1 # 2) = true))
       ∨ (query = Raised (Query Messages "conv-1") ∧ offer = None)).
Proof.
  eexists _, _. split; [vm_compute; reflexivity|].
  eapply (message_count_includes_current_exchange
            (list_to_map sample.message_fields) None
            (sample.message_env "msg-4" "msg-5" "offer-1" "2024-05-01T10:02:00Z")
            no_faults sample.exchanged _ _
            "conv-1" "I really can't afford this anymore" "test-user-123");
    try reflexivity.
  discriminate.
Defined.

(** C1 fails as stated: in the sample session the conversation has 3
    messages before the second exchange, for which no offer may be made,
    yet the count query of that request returns 5 and the request returns
    an offer. *)
Lemma message_count_pre_request_counterexample :
  length (messages_of "conv-1" (messages_table sample.exchanged)) = 3 ∧
  send_message.should_generate_offer 3 "I really can't afford this anymore" (1 # 2)
    = false ∧
  ∃ message offer w,
    run (send_message.handler (sample.post sample.message_fields)
           (sample.message_env "msg-4" "msg-5" "offer-1" "2024-05-01T10:02:00Z"))
        no_faults sample.exchanged =
      (Value (send_message.create_response 200 (MessageData message (Some offer))), w) ∧
    log w = [Returned (GetItem Conversations "conv-1") 1;
             Returned (PutItem Messages "msg-4") 0;
             Returned (PutItem Messages "msg-5") 0;
             Returned (Query Messages "conv-1") 5;
             Returned (PutItem Offers "offer-1") 0;
             Returned (UpdateItem Conversations "conv-1") 0].
Proof.
  split; [vm_compute; reflexivity|].
  split; [vm_compute; reflexivity|].
  eexists _, _, _. split; vm_compute; reflexivity.
Qed.

(** C8: in every request the Message Handler answers with 200, the user
    message and the AI reply are in the store with one and the same
    timestamp, the one drawn for the request, which is also the
    conversation's [updatedAt].  (The two message ids are distinct.) *)
Theorem exchange_shares_one_timestamp
    (fields : gmap string string) pp env faults s response w
    (conversation_id user_message user_id : string) (conversation : Conversation.t) :
  fields !! "conversationId" = Some conversation_id →
  fields !! "message" = Some user_message →
  fields !! "userId" = Some user_id →
  conversations_table s !! conversation_id = Some conversation →
  Conversation.userId conversation = user_id →
  send_message.user_message_id env ≠ send_message.ai_message_id env →
  run (send_message.handler
         {| body := Some (Json fields); pathParameters := pp |} env) faults s =
    (Value response, w) →
  statusCode response = 200%Z →
  ∃ user_message_item ai_message_item offer conversation',
    payload response = MessageData ai_message_item offer ∧
    messages_table (store w) !! send_message.user_message_id env = Some user_message_item ∧
    messages_table (store w) !! send_message.ai_message_id env = Some ai_message_item ∧
    Message.sender user_message_item = user ∧
    Message.content user_message_item = user_message ∧
    Message.sender ai_message_item = ai ∧
    Message.timestamp user_message_item = Message.timestamp ai_message_item ∧
    Message.timestamp ai_message_item = send_message.timestamp env ∧
    conversations_table (store w) !! conversation_id = Some conversation' ∧
    Conversation.updatedAt conversation' = Message.timestamp user_message_item.
Proof.
  intros Hc Hm Hu Hconv Howner Hne Hrun Hcode.
  destruct (faults 0) eqn:F0.
  { rewrite (message_handler_not_found _ _ _ _ _ _ _ _ Hc Hm Hu) in Hrun by auto.
    injection Hrun as <- _. discriminate Hcode. }
  rewrite (message_handler_run _ _ _ _ _ _ _ _ _ Hc Hm Hu Hconv Howner F0) in Hrun.
  cbv zeta in Hrun.
  assert (Htouched :
    alter (send_message.set_updatedAt (send_message.timestamp env)) conversation_id
      (conversations_table s) !! conversation_id =
    Some (send_message.set_updatedAt (send_message.timestamp env) conversation))
    by (by rewrite lookup_alter_eq, Hconv).
  destruct (faults 1); [injection Hrun as <- _; discriminate Hcode|].
  destruct (faults 2); [injection Hrun as <- _; discriminate Hcode|].
  destruct (send_message.should_generate_offer _ _ _).
  - destruct (faults 4); [injection Hrun as <- _; discriminate Hcode|].
    destruct (faults 5); [injection Hrun as <- _; discriminate Hcode|].
    injection Hrun as <- <-.
    eexists _, _, _, _. split; [reflexivity|]. cbn.
    rewrite lookup_insert_ne, !lookup_insert_eq by done.
    repeat split; [exact Htouched | reflexivity].
  - destruct (faults 4); [injection Hrun as <- _; discriminate Hcode|].
    injection Hrun as <- <-.
    eexists _, _, _, _. split; [reflexivity|]. cbn.
    rewrite lookup_insert_ne, !lookup_insert_eq by done.
    repeat split; [exact Htouched | reflexivity].
Qed.

Lemma exchange_shares_one_timestamp_witness :
  ∃ response w,
    run (send_message.handler (sample.post sample.message_fields)
           (sample.message_env "msg-2" "msg-3" "offer-0" "2024-05-01T10:01:00Z"))
        no_faults sample.started = (Value response, w) ∧
    ∃ user_message_item ai_message_item offer conversation',
      payload response = MessageData ai_message_item offer ∧
      messages_table (store w) !! "msg-2" = Some user_message_item ∧
      messages_table (store w) !! "msg-3" = Some ai_message_item ∧
      Message.sender user_message_item = user ∧
      Message.content user_message_item = "I really can't afford this anymore" ∧
      Message.sender ai_message_item = ai ∧
      Message.timestamp user_message_item = Message.timestamp ai_message_item ∧
      Message.timestamp ai_message_item = "2024-05-01T10:01:00Z" ∧
      conversations_table (store w) !! "conv-1" = Some conversation' ∧
      Conversation.updatedAt conversation' = Message.timestamp user_message_item.
Proof.
  eexists _, _. split; [vm_compute; reflexivity|].
  eapply (exchange_shares_one_timestamp
            (list_to_map sample.message_fields) None
            (sample.message_env "msg-2" "msg-3" "offer-0" "2024-05-01T10:01:00Z")
            no_faults sample.started _ _
            "conv-1" "I really can't afford this anymore" "test-user-123");
    try reflexivity.
  discriminate.
Defined.

(** The Offer Handler, for a conversation of another user: 404, and
    nothing is written. *)
Lemma offer_handler_not_owner (fields : gmap string string) pp env faults s
    (conversation_id offer_id action user_id : string) (conversation : Conversation.t) :
  fields !! "conversationId" = Some conversation_id →
  fields !! "offerId" = Some offer_id →
  fields !! "action" = Some action →
  fields !! "userId" = Some user_id →
  action = "accept" ∨ action = "reject" →
  conversations_table s !! conversation_id = Some conversation →
  Conversation.userId conversation ≠ user_id →
  faults 0 = false →
  run (handle_offer.handler
         {| body := Some (Json fields); pathParameters := pp |} env) faults s =
  (Value (handle_offer.create_response 404 (Error "Conversation not found")),
   {| store := s; log := [Returned (GetItem Conversations conversation_id) 1] |}).
Proof.
  intros Hc Ho Ha Hu Haction Hconv Howner F0.
  unfold run, handle_offer.handler. cbn [body].
  rewrite first_missing_None
    by (unfold handle_offer.required_fields; repeat constructor; eauto).
  rewrite (lookup_total_correct _ _ _ Hc), (lookup_total_correct _ _ _ Ho),
    (lookup_total_correct _ _ _ Ha), (lookup_total_correct _ _ _ Hu).
  cbv zeta.
  replace (negb (String.eqb action "accept" || String.eqb action "reject")) with false
    by (by destruct Haction as [-> | ->]).
  run_calls. rewrite F0, Hconv. cbn [found].
  by rewrite bool_decide_eq_true_2.
Qed.

(** C6: a request to the Message Handler or to the Offer Handler that
    names an existing conversation of another user is answered with 404
    "Conversation not found", and the store is left as it was, no write
    being attempted.  (The request passes validation; for the Offer
    Handler the read of the conversation is taken to succeed.) *)
Theorem ownership_check :
  (∀ (fields : gmap string string) pp env faults s
     (conversation_id user_message user_id : string) (conversation : Conversation.t),
     fields !! "conversationId" = Some conversation_id →
     fields !! "message" = Some user_message →
     fields !! "userId" = Some user_id →
     conversations_table s !! conversation_id = Some conversation →
     Conversation.userId conversation ≠ user_id →
     ∃ l,
       run (send_message.handler
              {| body := Some (Json fields); pathParameters := pp |} env) faults s =
         (Value (send_message.create_response 404 (Error "Conversation not found")),
          {| store := s; log := l |}) ∧
       existsb is_write l = false) ∧
  (∀ (fields : gmap string string) pp env faults s
     (conversation_id offer_id action user_id : string) (conversation : Conversation.t),
     fields !! "conversationId" = Some conversation_id →
     fields !! "offerId" = Some offer_id →
     fields !! "action" = Some action →
     fields !! "userId" = Some user_id →
     action = "accept" ∨ action = "reject" →
     conversations_table s !! conversation_id = Some conversation →
     Conversation.userId conversation ≠ user_id →
     faults 0 = false →
     ∃ l,
       run (handle_offer.handler
              {| body := Some (Json fields); pathParameters := pp |} env) faults s =
         (Value (handle_offer.create_response 404 (Error "Conversation not found")),
          {| store := s; log := l |}) ∧
       existsb is_write l = false).
Proof.
  split.
  - intros fields pp env faults s conversation_id user_message user_id conversation
      Hc Hm Hu Hconv Howner.
    eexists. split.
    + apply (message_handler_not_found _ _ _ _ _ _ _ _ Hc Hm Hu).
      right. intros c Hc'. congruence.
    + by destruct (faults 0).
  - intros fields pp env faults s conversation_id offer_id action user_id conversation
      Hc Ho Ha Hu Haction Hconv Howner F0.
    eexists. split.
    + by eapply offer_handler_not_owner.
    + reflexivity.
Qed.

Lemma ownership_check_witness :
  (∃ l,
     run (send_message.handler
            (sample.post [("conversationId", "conv-1"); ("message", "hello");
                          ("userId", "someone-else")])
            (sample.message_env "msg-6" "msg-7" "offer-2" "2024-05-01T10:03:00Z"))
         no_faults sample.offered =
       (Value (send_message.create_response 404 (Error "Conversation not found")),
        {| store := sample.offered; log := l |}) ∧
     existsb is_write l = false) ∧
  (∃ l,
     run (handle_offer.handler
            (sample.post (sample.offer_fields "offer-1" "accept" "someone-else"))
            (sample.offer_env "msg-6" "2024-05-01T10:03:00Z"))
         no_faults sample.offered =
       (Value (handle_offer.create_response 404 (Error "Conversation not found")),
        {| store := sample.offered; log := l |}) ∧
     existsb is_write l = false).
Proof.
  split.
  - eapply (proj1 ownership_check
              (list_to_map [("conversationId", "conv-1"); ("message", "hello");
                            ("userId", "someone-else")])
              None _ no_faults sample.offered "conv-1" "hello" "someone-else");
      try reflexivity.
    vm_compute. discriminate.
  - eapply (proj2 ownership_check
              (list_to_map (sample.offer_fields "offer-1" "accept" "someone-else"))
              None _ no_faults sample.offered "conv-1" "offer-1" "accept" "someone-else");
      try reflexivity.
    + left. reflexivity.
    + vm_compute. discriminate.
Defined.

(** ** Store failures *)

Lemma strict_mret {A} (a : A) : strict (mret a).
Proof. intros faults w. exists []. split; [by rewrite app_nil_r | discriminate]. Qed.

Lemma strict_raise {A} : strict (λ _ w, (@Exception A, w)).
Proof. intros faults w. exists []. split; [by rewrite app_nil_r | discriminate]. Qed.

Lemma strict_bind {A B} (m : M A) (k : A → M B) :
  strict m → (∀ a, strict (k a)) → strict (m ≫= k).
Proof.
  intros Hm Hk faults w. unfold mbind, M_bind.
  destruct (Hm faults w) as (l1 & Hlog1 & Hraise1).
  destruct (m faults w) as [[a|] w1]; cbn [fst snd] in *.
  - destruct (Hk a faults w1) as (l2 & Hlog2 & Hraise2).
    exists (l1 ++ l2)%list. split.
    + by rewrite Hlog2, Hlog1, app_assoc.
    + rewrite existsb_app, orb_true_iff. intros [H1 | H2].
      * by specialize (Hraise1 H1).
      * by apply Hraise2.
  - exists l1. split; [exact Hlog1 | done].
Qed.

Lemma strict_table_call {A} (c : Call) (Count : A → nat) (f : Store → A * Store) :
  strict (table_call c Count f).
Proof.
  intros faults w. unfold table_call. destruct (faults _).
  - by exists [Raised c].
  - destruct (f (store w)) as [a s']. exists [Returned c (Count a)].
    split; [done | discriminate].
Qed.

(** A handler whose body is strict answers with its [except] response when
    a call has raised, and always answers. *)
Lemma strict_try_except (body : M Response) (response : Response) faults s :
  strict body →
  ∃ r w, run (try_except body (mret response)) faults s = (Value r, w) ∧
         (existsb raised (log w) = true → r = response).
Proof.
  intros Hbody. unfold run, try_except.
  destruct (Hbody faults {| store := s; log := [] |}) as (l & Hlog & Hraise).
  destruct (body faults _) as [[r|] w]; cbn [fst snd log app] in *.
  - exists r, w. split; [done|]. rewrite Hlog. intros H. by specialize (Hraise H).
  - by exists response, w.
Qed.

Ltac strict_step :=
  lazymatch goal with
  | |- strict (mret _) => apply strict_mret
  | |- strict (_ ≫= _) => apply strict_bind; [|intros ?]
  | |- strict (table_call _ _ _) => apply strict_table_call
  | |- strict (match ?x with _ => _ end) => destruct x
  | |- strict (λ _ w, (Exception, w)) => apply strict_raise
  end.

Lemma start_handler_strict event env faults s :
  ∃ r w, run (start_conversation.handler event env) faults s = (Value r, w) ∧
         (existsb raised (log w) = true →
          r = start_conversation.create_response 500 (Error "Internal server error")).
Proof.
  apply strict_try_except.
  unfold conversations_put_item, messages_put_item.
  repeat strict_step.
Qed.

Lemma offer_handler_strict event env faults s :
  ∃ r w, run (handle_offer.handler event env) faults s = (Value r, w) ∧
         (existsb raised (log w) = true →
          r = handle_offer.create_response 500 (Error "Internal server error")).
Proof.
  apply strict_try_except.
  unfold conversations_get_item, conversations_update_item, messages_put_item,
    offers_get_item, offers_update_item.
  cbv zeta. repeat strict_step.
Qed.

Lemma read_handler_strict event faults s :
  ∃ r w, run (get_conversation.handler event) faults s = (Value r, w) ∧
         (existsb raised (log w) = true →
          r = get_conversation.create_response 500 (Error "Internal server error")).
Proof.
  apply strict_try_except.
  unfold conversations_get_item, messages_query, offers_query.
  repeat strict_step.
Qed.

Lemma first_missing_None_inv (required_fields : list string) (fields : gmap string string) :
  first_missing required_fields fields = None →
  Forall (λ field, is_Some (fields !! field)) required_fields.
Proof.
  unfold first_missing. induction required_fields as [|field l IH]; [constructor|].
  cbn [List.find]. case_bool_decide as Hfield; [discriminate|].
  intros H. constructor; [|by apply IH].
  by destruct (fields !! field).
Qed.

(** The Message Handler always answers; a raising write gives 500, a
    raising conversation lookup gives 404 with nothing written, and a
    raising count query alone gives 200 without an offer. *)
Lemma message_handler_failures event env faults s :
  ∃ r w, run (send_message.handler event env) faults s = (Value r, w) ∧
    (existsb (raised_call is_put_or_update) (log w) = true →
     r = send_message.create_response 500 (Error "Internal server error")) ∧
    (existsb (raised_call is_get_item) (log w) = true →
     r = send_message.create_response 404 (Error "Conversation not found") ∧
     store w = s) ∧
    (existsb (raised_call is_query) (log w) = true →
     existsb (raised_call is_put_or_update) (log w) = false →
     ∃ message, r = send_message.create_response 200 (MessageData message None)).
Proof.
  destruct event as [[[|fields]|] pp];
    try (eexists _, _; split; [reflexivity|]; cbn; repeat split; discriminate).
  destruct (first_missing send_message.required_fields fields) as [field|] eqn:Hreq.
  { unfold run, send_message.handler, try_except. cbn [body]. rewrite Hreq.
    eexists _, _. split; [reflexivity|]. cbn. repeat split; discriminate. }
  apply first_missing_None_inv in Hreq.
  unfold send_message.required_fields in Hreq.
  apply Forall_cons in Hreq as [[conversation_id Hc] Hreq].
  apply Forall_cons in Hreq as [[user_message Hm] Hreq].
  apply Forall_cons in Hreq as [[user_id Hu] _].
  destruct (faults 0) eqn:F0.
  { rewrite (message_handler_not_found _ _ _ _ _ _ _ _ Hc Hm Hu) by auto.
    rewrite F0. eexists _, _. split; [reflexivity|]. cbn. repeat split; discriminate. }
  destruct (conversations_table s !! conversation_id) as [conversation|] eqn:Hconv;
    [destruct (decide (Conversation.userId conversation = user_id)) as [Howner|Howner]|].
  - rewrite (message_handler_run _ _ _ _ _ _ _ _ _ Hc Hm Hu Hconv Howner F0).
    cbv zeta.
    destruct (faults 1);
      [eexists _, _; split; [reflexivity|]; cbn; repeat split; discriminate|].
    destruct (faults 2);
      [eexists _, _; split; [reflexivity|]; cbn; repeat split; discriminate|].
    destruct (faults 3).
    + change (send_message.should_generate_offer 0 user_message
                (send_message.offer_random env)) with false.
      destruct (faults 4);
        eexists _, _; (split; [reflexivity|]); cbn; repeat split;
        try discriminate; eauto.
    + destruct (send_message.should_generate_offer _ _ _);
        destruct (faults 4); try destruct (faults 5);
        eexists _, _; (split; [reflexivity|]); cbn; repeat split;
        try discriminate; eauto.
  - rewrite (message_handler_not_found _ _ _ _ _ _ _ _ Hc Hm Hu)
      by (right; intros c Hc'; congruence).
    rewrite F0. eexists _, _. split; [reflexivity|]. cbn. repeat split; discriminate.
  - rewrite (message_handler_not_found _ _ _ _ _ _ _ _ Hc Hm Hu)
      by (right; intros c Hc'; congruence).
    rewrite F0. eexists _, _. split; [reflexivity|]. cbn. repeat split; discriminate.
Qed.

(** C7, as the code has it: every handler always answers, and a call to
    the store that raises gives 500 "Internal server error" in the Start,
    Offer and Read Handlers, and in the Message Handler when the call is a
    write; in the Message Handler a raising conversation lookup gives 404
    "Conversation not found" with nothing written, and a raising count
    query is taken as a count of 0: the request goes on and, if no write
    raises, is answered with 200 and no offer. *)
Theorem store_failures :
  (∀ event env faults s,
     ∃ r w, run (start_conversation.handler event env) faults s = (Value r, w) ∧
       (existsb raised (log w) = true →
        r = start_conversation.create_response 500 (Error "Internal server error"))) ∧
  (∀ event env faults s,
     ∃ r w, run (handle_offer.handler event env) faults s = (Value r, w) ∧
       (existsb raised (log w) = true →
        r = handle_offer.create_response 500 (Error "Internal server error"))) ∧
  (∀ event faults s,
     ∃ r w, run (get_conversation.handler event) faults s = (Value r, w) ∧
       (existsb raised (log w) = true →
        r = get_conversation.create_response 500 (Error "Internal server error"))) ∧
  (∀ event env faults s,
     ∃ r w, run (send_message.handler event env) faults s = (Value r, w) ∧
       (existsb (raised_call is_put_or_update) (log w) = true →
        r = send_message.create_response 500 (Error "Internal server error")) ∧
       (existsb (raised_call is_get_item) (log w) = true →
        r = send_message.create_response 404 (Error "Conversation not found") ∧
        store w = s) ∧
       (existsb (raised_call is_query) (log w) = true →
        existsb (raised_call is_put_or_update) (log w) = false →
        ∃ message, r = send_message.create_response 200 (MessageData message None))).
Proof.
  split; [|split; [|split]].
  - apply start_handler_strict.
  - apply offer_handler_strict.
  - apply read_handler_strict.
  - apply message_handler_failures.
Qed.

(** C7 fails as stated: in the sample session, a message request whose
    conversation lookup raises is answered with 404, and one whose count
    query raises is answered with 200. *)
Lemma store_failures_counterexample :
  (∃ w,
     run (send_message.handler (sample.post sample.message_fields)
            (sample.message_env "msg-4" "msg-5" "offer-1" "2024-05-01T10:02:00Z"))
         (fails_at 0) sample.exchanged =
       (Value (send_message.create_response 404 (Error "Conversation not found")), w) ∧
     log w = [Raised (GetItem Conversations "conv-1")]) ∧
  (∃ message w,
     run (send_message.handler (sample.post sample.message_fields)
            (sample.message_env "msg-4" "msg-5" "offer-1" "2024-05-01T10:02:00Z"))
         (fails_at 3) sample.exchanged =
       (Value (send_message.create_response 200 (MessageData message None)), w) ∧
     log w = [Returned (GetItem Conversations "conv-1") 1;
              Returned (PutItem Messages "msg-4") 0;
              Returned (PutItem Messages "msg-5") 0;
              Raised (Query Messages "conv-1");
              Returned (UpdateItem Conversations "conv-1") 0]).
Proof.
  split.
  - eexists. split; vm_compute; reflexivity.
  - eexists _, _. split; vm_compute; reflexivity.
Qed.

(** ** The properties on the sample session *)

Lemma conversation_invariant_witness :
  store_invariant (serve_all sample.requests empty_store) ∧
  ∃ conversation,
    conversations_table (serve_all sample.requests empty_store) !! "conv-1" =
      Some conversation ∧
    Conversation.status conversation = completed ∧
    Conversation.outcome conversation = Some cancelled.
Proof.
  split.
  - apply (proj1 conversation_invariant sample.requests).
  - eexists. split; [vm_compute; reflexivity|]. split; reflexivity.
Defined.

Lemma generate_initial_message_deterministic_witness :
  substring_of "I moved abroad"
    (start_conversation.generate_initial_message "other" "I moved abroad") ∧
  substring_of "I moved abroad"
    (start_conversation.generate_initial_message "moving" "I moved abroad").
Proof.
  split.
  - apply (proj2 (proj2 generate_initial_message_deterministic)). left. reflexivity.
  - apply (proj2 (proj2 generate_initial_message_deterministic)). right.
    rewrite !not_elem_of_cons. repeat split; try discriminate.
    apply not_elem_of_nil.
Defined.

Lemma store_failures_witness :
  ∃ w,
    run (start_conversation.handler (sample.post sample.start_fields) sample.start_env)
        (fails_at 1) empty_store =
      (Value (start_conversation.create_response 500 (Error "Internal server error")), w).
Proof.
  destruct (proj1 store_failures (sample.post sample.start_fields) sample.start_env
              (fails_at 1) empty_store) as (r & w & Hrun & Hraised).
  exists w. rewrite Hrun. f_equal. f_equal. apply Hraised.
  vm_compute in Hrun. injection Hrun as _ <-. reflexivity.
Defined.

(** ** The updates are made on items that are present

    [update_item] is modelled by [alter]; in every run of the two handlers
    that call it, the key it is given has an item, so that the update is
    the replacement of that item. *)

Lemma alter_present {A} (f : A → A) (m : gmap string A) k x :
  m !! k = Some x → alter f k m = <[k := f x]> m.
Proof.
  intros H. apply map_eq. intros j. rewrite lookup_alter, lookup_insert.
  case_decide; [by subst; rewrite H | done].
Qed.

Lemma offer_handler_updates_present event env faults s :
  let s' := store (snd (run (handle_offer.handler event env) faults s)) in
  replaces_present (conversations_table s) (conversations_table s') ∧
  replaces_present (offers_table s) (offers_table s').
Proof.
  unfold replaces_present, run, handle_offer.handler, try_except.
  destruct event as [[[|fields]|] pp]; cbn [body]; try (split; by left).
  destruct (first_missing _ _); [split; by left|].
  cbv zeta.
  destruct (negb _); [split; by left|].
  run_calls.
  destruct (faults 0); [split; by left|]. cbn [log store length app fst snd].
  destruct (conversations_table s !! _) as [c|] eqn:Hc; [|split; by left].
  case_bool_decide; [split; by left|].
  cbn [log store length app fst snd].
  destruct (faults 1); [split; by left|]. cbn [log store length app fst snd].
  destruct (offers_table s !! _) as [o|] eqn:Ho; [|split; by left].
  case_bool_decide; [split; by left|].
  case_bool_decide; [split; by left|].
  cbn [log store length app fst snd].
  destruct (faults 2); [split; by left|]. cbn [log store length app fst snd].
  destruct (faults 3); cbn [log store length app fst snd].
  { split; [by left|]. right. eexists _, _, _. split; [exact Ho|].
    cbn. by apply alter_present. }
  destruct (faults 4); cbn [log store length app fst snd];
    (split; right; eexists _, _, _; (split; [eassumption|]);
     cbn; by apply alter_present).
Qed.

Lemma message_handler_updates_present event env faults s :
  replaces_present (conversations_table s)
    (conversations_table (store (snd (run (send_message.handler event env) faults s)))).
Proof.
  unfold replaces_present.
  destruct event as [[[|fields]|] pp]; try (by left).
  destruct (first_missing send_message.required_fields fields) as [field|] eqn:Hreq.
  { unfold run, send_message.handler, try_except. cbn [body]. rewrite Hreq.
    by left. }
  apply first_missing_None_inv in Hreq.
  unfold send_message.required_fields in Hreq.
  apply Forall_cons in Hreq as [[conversation_id Hc] Hreq].
  apply Forall_cons in Hreq as [[user_message Hm] Hreq].
  apply Forall_cons in Hreq as [[user_id Hu] _].
  destruct (faults 0) eqn:F0.
  { rewrite (message_handler_not_found _ _ _ _ _ _ _ _ Hc Hm Hu) by auto.
    by left. }
  destruct (conversations_table s !! conversation_id) as [conversation|] eqn:Hconv;
    [destruct (decide (Conversation.userId conversation = user_id)) as [Howner|Howner]|].
  - rewrite (message_handler_run _ _ _ _ _ _ _ _ _ Hc Hm Hu Hconv Howner F0).
    cbv zeta.
    destruct (faults 1); [by left|].
    destruct (faults 2); [by left|].
    destruct (send_message.should_generate_offer _ _ _);
      destruct (faults 4); try destruct (faults 5);
      cbn; try (by left);
      right; eexists _, _, _; (split; [exact Hconv|]); by apply alter_present.
  - rewrite (message_handler_not_found _ _ _ _ _ _ _ _ Hc Hm Hu)
      by (right; intros c Hc'; congruence).
    by left.
  - rewrite (message_handler_not_found _ _ _ _ _ _ _ _ Hc Hm Hu)
      by (right; intros c Hc'; congruence).
    by left.
Qed.

(** * Further properties of the handlers *)

(** ** The responder *)

(** [random.choice] never leaves the sequence it draws from. *)
Lemma choice_elem_of {A} (d : A) (seq : list A) (i : nat) :
  seq ≠ [] → choice d seq i ∈ seq.
Proof.
  intros Hne. unfold choice. apply nth_elem_of.
  apply Nat.mod_upper_bound. by destruct seq.
Qed.

Lemma mentions_trigger_iff (user_message : string) :
  any_in send_message.trigger_words (lower user_message) = true ↔
  mentions_trigger user_message.
Proof. apply any_in_true_iff. Qed.

(** X1: the chance of an offer never goes down when the conversation is
    longer, the draw is higher, or the message mentions a trigger word:
    if [should_generate_offer] accepts a count, a message and a draw, it
    accepts every count and draw at least as large, for every message that
    mentions a trigger word whenever the first one does. *)
Theorem should_generate_offer_monotone
    (n n' : Z) (user_message user_message' : string) (r r' : Q) :
  (n ≤ n')%Z →
  (r <= r')%Q →
  (mentions_trigger user_message → mentions_trigger user_message') →
  send_message.should_generate_offer n user_message r = true →
  send_message.should_generate_offer n' user_message' r' = true.
Proof.
  intros Hn Hr Hword. unfold send_message.should_generate_offer.
  destruct (n <? 4)%Z eqn:En; [discriminate|].
  apply Z.ltb_ge in En.
  replace (n' <? 4)%Z with false by (symmetry; apply Z.ltb_ge; lia).
  rewrite <- !mentions_trigger_iff in Hword.
  assert (H24 : (send_message.double_0_2 < send_message.double_0_4)%Q) by reflexivity.
  destruct (any_in _ (lower user_message)) eqn:E1;
    destruct (any_in _ (lower user_message')) eqn:E2;
    rewrite !gt_true_iff; intros H.
  - by eapply Qlt_le_trans.
  - by specialize (Hword eq_refl).
  - eapply Qlt_le_trans; [|exact Hr]. by eapply Qlt_trans.
  - by eapply Qlt_le_trans.
Qed.

Lemma should_generate_offer_monotone_witness :
  send_message.should_generate_offer 7 "the PRICE is a problem" (1 # 2) = true.
Proof.
  apply (should_generate_offer_monotone 5 7 "hello" "the PRICE is a problem"
           (9 # 20) (1 # 2)).
  - lia.
  - discriminate.
  - intros _. exists "problem". split.
    + unfold send_message.trigger_words. set_solver.
    + exists "the price is a ", "". reflexivity.
  - reflexivity.
Defined.

(** X2: a message that mentions a pricing word gets one of the three
    pricing replies, whichever other keywords it contains and whatever the
    draw; and no message ever gets an empty reply. *)
Theorem generate_ai_response_pricing_first
    (user_message : string) (conversation : Conversation.t) (i : nat) :
  ((∃ word, word ∈ ["expensive"; "cost"; "money"; "afford"; "price"] ∧
            substring_of word (lower user_message)) →
   send_message.generate_ai_response user_message conversation i ∈
     ["I completely understand that budget is important. Let me see what special pricing options I can offer you.";
      "Cost is definitely a valid concern. I have some exclusive discounts that might help make this more affordable.";
      "I hear you on the pricing. Let me check what promotional offers are available for valued customers like you."]) ∧
  send_message.generate_ai_response user_message conversation i ≠ "".
Proof.
  unfold send_message.generate_ai_response. cbv zeta. split.
  - intros Hword. apply any_in_true_iff in Hword. rewrite Hword.
    by apply choice_elem_of.
  - repeat (destruct (any_in _ _));
      (match goal with
       | |- choice _ ?l _ ≠ _ =>
           pose proof (choice_elem_of "" l i ltac:(discriminate)) as Hin
       end;
       intros Hempty; rewrite Hempty in Hin;
       repeat (apply elem_of_cons in Hin as [Hin|Hin]; [discriminate Hin|]);
       by apply elem_of_nil in Hin).
Qed.

Lemma generate_ai_response_pricing_first_witness :
  send_message.generate_ai_response "A BUG made it too Expensive"
    {| Conversation.id := "c"; Conversation.userId := "u";
       Conversation.subscriptionId := "s"; Conversation.status := active;
       Conversation.outcome := None; Conversation.reason := "technical_issues";
       Conversation.reasonText := ""; Conversation.createdAt := "t";
       Conversation.updatedAt := "t" |} 7 ∈
    ["I completely understand that budget is important. Let me see what special pricing options I can offer you.";
     "Cost is definitely a valid concern. I have some exclusive discounts that might help make this more affordable.";
     "I hear you on the pricing. Let me check what promotional offers are available for valued customers like you."].
Proof.
  apply (proj1 (generate_ai_response_pricing_first "A BUG made it too Expensive" _ 7)).
  exists "expensive". split; [set_solver|].
  unfold substring_of. exists "a bug made it too ", "". reflexivity.
Defined.

(** X3: the closing message of an accepted offer always names the offer,
    by its lowercased title, whatever template is drawn; the closing
    message of any other action does not depend on the offer. *)
Theorem generate_final_message_names_offer (action : string) (offer : Offer.t) (i : nat) :
  (action = "accept" →
   substring_of (lower (Offer.title offer))
     (handle_offer.generate_final_message action offer i)) ∧
  (action ≠ "accept" →
   ∀ offer', handle_offer.generate_final_message action offer' i =
             handle_offer.generate_final_message action offer i).
Proof.
  unfold handle_offer.generate_final_message. split.
  - intros ->. cbn [String.eqb Ascii.eqb Bool.eqb]. cbv zeta.
    match goal with
    | |- substring_of _ (choice _ ?l _) =>
        pose proof (choice_elem_of "" l i ltac:(discriminate)) as Hin
    end.
    unfold substring_of.
    repeat (apply elem_of_cons in Hin as [-> | Hin]; [by eexists _, _|]).
    by apply elem_of_nil in Hin.
  - intros Hne offer'. destruct (String.eqb action "accept") eqn:E; [|done].
    by apply String.eqb_eq in E.
Qed.

Lemma generate_final_message_names_offer_witness :
  substring_of "pause for 3 months"
    (handle_offer.generate_final_message "accept"
       (send_message.retention_offer "conv-1"
          {| Conversation.id := "conv-1"; Conversation.userId := "u";
             Conversation.subscriptionId := "s"; Conversation.status := active;
             Conversation.outcome := None; Conversation.reason := "not_using";
             Conversation.reasonText := ""; Conversation.createdAt := "t";
             Conversation.updatedAt := "t" |}
          (sample.message_env "m1" "m2" "o1" "t")) 6).
Proof.
  exact (proj1 (generate_final_message_names_offer "accept"
                  (send_message.retention_offer "conv-1"
                     {| Conversation.id := "conv-1"; Conversation.userId := "u";
                        Conversation.subscriptionId := "s"; Conversation.status := active;
                        Conversation.outcome := None; Conversation.reason := "not_using";
                        Conversation.reasonText := ""; Conversation.createdAt := "t";
                        Conversation.updatedAt := "t" |}
                     (sample.message_env "m1" "m2" "o1" "t")) 6) eq_refl).
Defined.

(** X4: [generate_retention_offer] always returns an offer; it is pending,
    attached to the given conversation, carries the three fixed terms, and
    is one of the two candidates of the conversation's reason (never the
    placeholder of an out-of-range draw).  Only the reasons too_expensive,
    technical_issues and not_using have candidates of their own: every
    other reason, found_alternative included, gets the default pair. *)
Theorem generate_retention_offer_candidate
    (conversation_id : string) (conversation : Conversation.t) (env : send_message.Env) :
  ∃ offer template,
    send_message.generate_retention_offer conversation_id conversation env = Some offer ∧
    Offer.status offer = pending ∧
    Offer.conversationId offer = conversation_id ∧
    Offer.id offer = send_message.offer_id env ∧
    length (Offer.terms offer) = 3 ∧
    length (send_message.offer_types (Conversation.reason conversation)) = 2 ∧
    template ∈ send_message.offer_types (Conversation.reason conversation) ∧
    Offer.type offer = send_message.type template ∧
    Offer.title offer = send_message.title template ∧
    Offer.description offer = send_message.description template ∧
    Offer.savings offer = send_message.savings template ∧
    Offer.details offer = send_message.details template ∧
    (Conversation.reason conversation ∉ ["too_expensive"; "technical_issues"; "not_using"] →
     send_message.offer_types (Conversation.reason conversation) =
     send_message.offer_types "other").
Proof.
  eexists _, (choice send_message.no_offer
                (send_message.offer_types (Conversation.reason conversation))
                (send_message.offer_choice env)).
  split; [reflexivity|].
  assert (Hlen : length (send_message.offer_types (Conversation.reason conversation)) = 2).
  { unfold send_message.offer_types. by repeat (destruct (String.eqb _ _)). }
  repeat split; try done.
  - apply choice_elem_of. intros Hnil. by rewrite Hnil in Hlen.
  - intros Hother. rewrite !not_elem_of_cons in Hother.
    destruct Hother as (H1 & H2 & H3 & _).
    unfold send_message.offer_types.
    apply String.eqb_neq in H1, H2, H3. by rewrite H1, H2, H3.
Qed.

(** ** Validation and client errors *)

(** Case analysis on everything a run of a handler branches on: the fault
    schedule, the validation tests and the lookups, in the order in which
    the run meets them. *)
Ltac handler_cases faults :=
  repeat first
    [ progress cbn [log store length app fst snd found body]
    | match goal with
      | |- context [faults ?n] => destruct (faults n) eqn:?
      end
    | match goal with
      | |- context [bool_decide ?P] => destruct (bool_decide P) eqn:?
      | |- context [negb ?b] => destruct (negb b) eqn:?
      | |- context [first_missing ?l ?b] => destruct (first_missing l b) eqn:?
      | |- context [send_message.should_generate_offer ?n ?m ?r] =>
          destruct (send_message.should_generate_offer n m r) eqn:?
      | |- context [@lookup ?K ?A ?M ?L ?k ?m] =>
          lazymatch goal with
          | |- context [match @lookup K A M L k m with _ => _ end] =>
              destruct (@lookup K A M L k m) eqn:?
          end
      end ].

Ltac unfold_handlers :=
  unfold run, start_conversation.handler, send_message.handler,
    send_message.get_conversation, send_message.get_message_count,
    send_message.maybe_offer, send_message.generate_retention_offer,
    handle_offer.handler, get_conversation.handler, try_except;
  cbv zeta.

Lemma first_missing_Some (before after : list string) (field : string)
    (fields : gmap string string) :
  Forall (λ f, is_Some (fields !! f)) before →
  fields !! field = None →
  first_missing (before ++ field :: after) fields = Some field.
Proof.
  intros Hbefore Hfield. unfold first_missing.
  induction Hbefore as [|f before [v Hv] _ IH]; cbn [List.find app].
  - by rewrite bool_decide_eq_true_2.
  - rewrite bool_decide_eq_false_2; [exact IH | by rewrite Hv].
Qed.

(** X5: validation comes before any access to the store: when the body
    lacks a required field, each of the three POST handlers answers 400
    with the name of the first field of its list that is absent, makes no
    call to a table and leaves the store as it is, whatever the fault
    schedule. *)
Theorem validation_names_first_missing_field
    (fields : gmap string string) pp (before after : list string) (field : string)
    faults s :
  Forall (λ f, is_Some (fields !! f)) before →
  fields !! field = None →
  (∀ env, start_conversation.required_fields = (before ++ field :: after)%list →
     run (start_conversation.handler
            {| body := Some (Json fields); pathParameters := pp |} env) faults s =
     (Value (start_conversation.create_response 400
               (Error ("Missing required field: " ++ field))),
      {| store := s; log := [] |})) ∧
  (∀ env, send_message.required_fields = (before ++ field :: after)%list →
     run (send_message.handler
            {| body := Some (Json fields); pathParameters := pp |} env) faults s =
     (Value (send_message.create_response 400
               (Error ("Missing required field: " ++ field))),
      {| store := s; log := [] |})) ∧
  (∀ env, handle_offer.required_fields = (before ++ field :: after)%list →
     run (handle_offer.handler
            {| body := Some (Json fields); pathParameters := pp |} env) faults s =
     (Value (handle_offer.create_response 400
               (Error ("Missing required field: " ++ field))),
      {| store := s; log := [] |})).
Proof.
  intros Hbefore Hfield.
  pose proof (first_missing_Some before after field fields Hbefore Hfield) as Hmiss.
  repeat split; intros env Hreq; unfold_handlers; cbn [body];
    rewrite Hreq, Hmiss; reflexivity.
Qed.

Lemma validation_names_first_missing_field_witness :
  run (handle_offer.handler
         (sample.post [("conversationId", "conv-1"); ("userId", "test-user-123")])
         (sample.offer_env "msg-9" "2024-05-01T10:05:00Z"))
      (fails_at 0) sample.offered =
  (Value (handle_offer.create_response 400 (Error "Missing required field: offerId")),
   {| store := sample.offered; log := [] |}).
Proof.
  apply (proj2 (proj2 (validation_names_first_missing_field
           (list_to_map [("conversationId", "conv-1"); ("userId", "test-user-123")])
           None ["conversationId"] ["action"; "userId"] "offerId"
           (fails_at 0) sample.offered
           ltac:(repeat constructor; by eexists) eq_refl))).
  reflexivity.
Defined.

Lemma start_client_error event env faults s :
  let res := run (start_conversation.handler event env) faults s in
  ∀ r, fst res = Value r → client_error r →
  store (snd res) = s ∧ existsb attempts_write (log (snd res)) = false.
Proof.
  unfold_handlers. unfold client_error.
  destruct event as [[[|fields]|] pp]; run_calls; handler_cases faults;
    intros r [= <-] [Hc|Hc]; try discriminate Hc; split; reflexivity.
Qed.

Lemma message_client_error event env faults s :
  let res := run (send_message.handler event env) faults s in
  ∀ r, fst res = Value r → client_error r →
  store (snd res) = s ∧ existsb attempts_write (log (snd res)) = false.
Proof.
  unfold_handlers. unfold client_error.
  destruct event as [[[|fields]|] pp]; run_calls; handler_cases faults;
    intros r [= <-] [Hc|Hc]; try discriminate Hc; split; reflexivity.
Qed.

Lemma offer_client_error event env faults s :
  let res := run (handle_offer.handler event env) faults s in
  ∀ r, fst res = Value r → client_error r →
  store (snd res) = s ∧ existsb attempts_write (log (snd res)) = false.
Proof.
  unfold_handlers. unfold client_error.
  destruct event as [[[|fields]|] pp]; run_calls; handler_cases faults;
    intros r [= <-] [Hc|Hc]; try discriminate Hc; split; reflexivity.
Qed.

(** The Read Handler makes no write, whatever it answers. *)
Lemma read_handler_no_write event faults s :
  let res := run (get_conversation.handler event) faults s in
  store (snd res) = s ∧ existsb attempts_write (log (snd res)) = false.
Proof.
  unfold_handlers.
  destruct event as [b [[params|]|]]; cbn [pathParameters default from_option id].
  - destruct (params !! "id") as [[|a cid]|] eqn:Hid; try (split; reflexivity).
    run_calls; handler_cases faults; split; reflexivity.
  - split; reflexivity.
  - rewrite lookup_empty. split; reflexivity.
Qed.

(** X6: an answer of 400 or 404, from any of the four handlers and under
    any fault schedule, means that the store is exactly as it was and that
    no write was even attempted. *)
Theorem client_errors_write_nothing (request : Request) faults s r w :
  run (handle request) faults s = (Value r, w) →
  client_error r →
  store w = s ∧ existsb attempts_write (log w) = false.
Proof.
  intros Hrun Herr.
  destruct request as [event env|event env|event env|event]; cbn [handle] in Hrun.
  - pose proof (start_client_error event env faults s) as H.
    cbv zeta in H. rewrite Hrun in H. by apply (H r).
  - pose proof (message_client_error event env faults s) as H.
    cbv zeta in H. rewrite Hrun in H. by apply (H r).
  - pose proof (offer_client_error event env faults s) as H.
    cbv zeta in H. rewrite Hrun in H. by apply (H r).
  - pose proof (read_handler_no_write event faults s) as H.
    cbv zeta in H. by rewrite Hrun in H.
Qed.

Lemma client_errors_write_nothing_witness :
  ∃ r w,
    run (handle (OfferRequest
                   (sample.post (sample.offer_fields "offer-1" "accept" "test-user-123"))
                   (sample.offer_env "msg-9" "2024-05-01T10:05:00Z")))
        no_faults sample.rejected_first = (Value r, w) ∧
    statusCode r = 400%Z ∧
    store w = sample.rejected_first ∧ existsb attempts_write (log w) = false.
Proof.
  eexists _, _. split; [vm_compute; reflexivity|]. split; [reflexivity|].
  eapply (client_errors_write_nothing
            (OfferRequest
               (sample.post (sample.offer_fields "offer-1" "accept" "test-user-123"))
               (sample.offer_env "msg-9" "2024-05-01T10:05:00Z"))
            no_faults sample.rejected_first).
  - vm_compute. reflexivity.
  - left. reflexivity.
Defined.

(** ** The Read Handler *)

(** X7: the Read Handler is read-only: whatever the event and the fault
    schedule, the store after the request is the store before it and the
    handler attempts no write. *)
Theorem read_handler_read_only event faults s r w :
  run (get_conversation.handler event) faults s = (r, w) →
  store w = s ∧ existsb attempts_write (log w) = false.
Proof.
  intros Hrun. pose proof (read_handler_no_write event faults s) as H.
  cbv zeta in H. by rewrite Hrun in H.
Qed.

Lemma read_handler_read_only_witness :
  ∃ r w,
    run (get_conversation.handler
           {| body := None; pathParameters := Some (Some {[ "id" := "conv-1" ]}) |})
        (fails_at 1) sample.offered = (r, w) ∧
    store w = sample.offered ∧ existsb attempts_write (log w) = false.
Proof.
  eexists _, _. split; [vm_compute; reflexivity|].
  eapply (read_handler_read_only
            {| body := None; pathParameters := Some (Some {[ "id" := "conv-1" ]}) |}
            (fails_at 1) sample.offered).
  vm_compute. reflexivity.
Defined.

#[local] Instance timestamp_le_total : Total timestamp_le.
Proof.
  intros m1 m2. unfold timestamp_le.
  destruct (String.leb_total (Message.timestamp m1) (Message.timestamp m2)) as [H|H];
    [left|right]; by rewrite H.
Qed.




(** The run of the Read Handler for a conversation that is found, when no
    call raises. *)
Lemma read_handler_run pp_body (parameters : gmap string string) faults s
    (conversation_id : string) (conversation : Conversation.t) :
  parameters !! "id" = Some conversation_id →
  conversation_id ≠ "" →
  conversations_table s !! conversation_id = Some conversation →
  (∀ n, faults n = false) →
  run (get_conversation.handler
         {| body := pp_body; pathParameters := Some (Some parameters) |}) faults s =
  (Value (get_conversation.create_response 200
            (ConversationData conversation
               (messages_of conversation_id (messages_table s))
               (offers_of conversation_id (offers_table s)))),
   {| store := s;
      log := [Returned (GetItem Conversations conversation_id) 1;
              Returned (Query Messages conversation_id)
                (length (messages_of conversation_id (messages_table s)));
              Returned (Query Offers conversation_id)
                (length (offers_of conversation_id (offers_table s)))] |}).
Proof.
  intros Hid Hne Hconv Hquiet. unfold_handlers.
  cbn [pathParameters default from_option id]. rewrite Hid.
  destruct conversation_id as [|a cid]; [done|].
  run_calls. quiet_calls Hquiet. rewrite Hconv. cbn [found].
  quiet_calls Hquiet. reflexivity.
Qed.



(** X9: the errors of the Read Handler.  Without an id (no path
    parameters, or parameters without [id], or an empty [id]) it answers
    400 and calls no table; with path parameters that are null it answers
    500, the lookup of [id] raising; for an id with no conversation it
    answers 404.  The store is left as it is in each case. *)
Theorem read_handler_errors pp_body faults s :
  (∀ pp, pp = None ∨
         (∃ parameters, pp = Some (Some parameters) ∧
            (parameters !! "id" = None ∨ parameters !! "id" = Some "")) →
     run (get_conversation.handler {| body := pp_body; pathParameters := pp |}) faults s =
     (Value (get_conversation.create_response 400 (Error "Missing conversation ID")),
      {| store := s; log := [] |})) ∧
  run (get_conversation.handler {| body := pp_body; pathParameters := Some None |})
      faults s =
    (Value (get_conversation.create_response 500 (Error "Internal server error")),
     {| store := s; log := [] |}) ∧
  (∀ (parameters : gmap string string) conversation_id,
     parameters !! "id" = Some conversation_id →
     conversation_id ≠ "" →
     conversations_table s !! conversation_id = None →
     faults 0 = false →
     run (get_conversation.handler
            {| body := pp_body; pathParameters := Some (Some parameters) |}) faults s =
     (Value (get_conversation.create_response 404 (Error "Conversation not found")),
      {| store := s; log := [Returned (GetItem Conversations conversation_id) 0] |})).
Proof.
  split; [|split].
  - intros pp [-> | (parameters & -> & [Hid | Hid])]; unfold_handlers;
      cbn [pathParameters default from_option id].
    + by rewrite lookup_empty.
    + by rewrite Hid.
    + by rewrite Hid.
  - reflexivity.
  - intros parameters conversation_id Hid Hne Hnone F0. unfold_handlers.
    cbn [pathParameters default from_option id]. rewrite Hid.
    destruct conversation_id as [|a cid]; [done|].
    run_calls. by rewrite F0, Hnone.
Qed.

Lemma read_handler_errors_witness :
  run (get_conversation.handler
         {| body := None; pathParameters := Some (Some {[ "id" := "conv-9" ]}) |})
      no_faults sample.offered =
  (Value (get_conversation.create_response 404 (Error "Conversation not found")),
   {| store := sample.offered; log := [Returned (GetItem Conversations "conv-9") 0] |}).
Proof.
  apply (proj2 (proj2 (read_handler_errors None no_faults sample.offered))
           {[ "id" := "conv-9" ]} "conv-9").
  - apply lookup_singleton_eq.
  - discriminate.
  - vm_compute. reflexivity.
  - reflexivity.
Defined.

(** ** How the handlers compose *)

Lemma filter_none {A} (P : A → Prop) `{∀ x, Decision (P x)} (l : list A) :
  Forall (λ x, ¬ P x) l → filter P l = [].
Proof.
  induction 1 as [|x l Hx _ IH]; [done|]. by rewrite filter_cons_False.
Qed.

(** The messages of a conversation none of whose messages is stored yet,
    after one message of it is written. *)
Lemma messages_of_first (conversation_id : string)
    (table : gmap string Message.t) (m : Message.t) :
  (∀ key m', table !! key = Some m' → Message.conversationId m' ≠ conversation_id) →
  Message.conversationId m = conversation_id →
  messages_of conversation_id (<[Message.id m := m]> table) = [m].
Proof.
  intros Hnone Hm. apply Permutation_singleton_r. unfold messages_of.
  rewrite merge_sort_Permutation, <- insert_delete_eq.
  rewrite map_to_list_insert by apply lookup_delete_eq.
  rewrite fmap_cons. cbn [snd]. rewrite filter_cons_True by done.
  rewrite filter_none; [done|].
  apply Forall_forall. intros m' Hin.
  apply list_elem_of_fmap in Hin as [[key m''] [-> Hin]].
  apply elem_of_map_to_list, lookup_delete_Some in Hin as [_ Hin].
  by eapply Hnone.
Qed.

Lemma offers_of_none (conversation_id : string) (table : gmap string Offer.t) :
  (∀ key o, table !! key = Some o → Offer.conversationId o ≠ conversation_id) →
  offers_of conversation_id table = [].
Proof.
  intros Hnone. unfold offers_of. apply filter_none.
  apply Forall_forall. intros o Hin.
  apply list_elem_of_fmap in Hin as [[key o'] [-> Hin]].
  apply elem_of_map_to_list in Hin. by eapply Hnone.
Qed.

(** X10: start, then read: reading the conversation a start request has
    just created returns the conversation and the one message that the
    start request returned, and no offer.  (No call raises; the new
    conversation id is not empty and no stored message or offer carries it
    yet.) *)
Theorem start_then_read (fields : gmap string string) pp env faults1 faults2 s
    pp_body (parameters : gmap string string) :
  Forall (λ f, is_Some (fields !! f)) start_conversation.required_fields →
  parameters !! "id" = Some (start_conversation.conversation_id env) →
  start_conversation.conversation_id env ≠ "" →
  (∀ key m, messages_table s !! key = Some m →
            Message.conversationId m ≠ start_conversation.conversation_id env) →
  (∀ key o, offers_table s !! key = Some o →
            Offer.conversationId o ≠ start_conversation.conversation_id env) →
  (∀ n, faults1 n = false) →
  (∀ n, faults2 n = false) →
  ∃ conversation message w1 w2,
    run (start_conversation.handler
           {| body := Some (Json fields); pathParameters := pp |} env) faults1 s =
      (Value (start_conversation.create_response 200
                (StartData conversation [message])), w1) ∧
    run (get_conversation.handler
           {| body := pp_body; pathParameters := Some (Some parameters) |})
        faults2 (store w1) =
      (Value (get_conversation.create_response 200
                (ConversationData conversation [message] [])), w2).
Proof.
  intros Hfields Hid Hne Hmessages Hoffers Hquiet1 Hquiet2.
  eexists _, _, _, _. split.
  - rewrite start_handler_run by by apply first_missing_None.
    cbv zeta. rewrite !Hquiet1. reflexivity.
  - cbn [store].
    erewrite read_handler_run; [|exact Hid|exact Hne| |exact Hquiet2].
    + cbn [messages_table offers_table with_messages with_conversations].
      rewrite (messages_of_first _ _ (start_conversation.message_item fields env))
        by done.
      rewrite offers_of_none by done. reflexivity.
    + cbn. apply lookup_insert_eq.
Qed.

Lemma start_then_read_witness :
  ∃ conversation message w1 w2,
    run (start_conversation.handler (sample.post sample.start_fields) sample.start_env)
        no_faults empty_store =
      (Value (start_conversation.create_response 200
                (StartData conversation [message])), w1) ∧
    run (get_conversation.handler
           {| body := None; pathParameters := Some (Some {[ "id" := "conv-1" ]}) |})
        no_faults (store w1) =
      (Value (get_conversation.create_response 200
                (ConversationData conversation [message] [])), w2).
Proof.
  apply (start_then_read (list_to_map sample.start_fields) None sample.start_env
           no_faults no_faults empty_store None {[ "id" := "conv-1" ]}).
  - unfold start_conversation.required_fields. repeat constructor; by eexists.
  - apply lookup_singleton_eq.
  - discriminate.
  - intros key m Hm. cbn in Hm. by rewrite lookup_empty in Hm.
  - intros key o Ho. cbn in Ho. by rewrite lookup_empty in Ho.
  - reflexivity.
  - reflexivity.
Defined.

(** Writing one message adds at most one to the count of a conversation. *)
Lemma messages_of_insert_le (conversation_id key : string)
    (table : gmap string Message.t) (m : Message.t) :
  (length (messages_of conversation_id (<[key := m]> table)) ≤
   S (length (messages_of conversation_id table)))%nat.
Proof.
  unfold messages_of. rewrite !merge_sort_Permutation.
  rewrite <- insert_delete_eq, map_to_list_insert by apply lookup_delete_eq.
  rewrite fmap_cons. cbn [snd].
  assert (Hle : (length (filter (λ m, Message.conversationId m = conversation_id)
                           (snd <$> map_to_list (delete key table))) ≤
                 length (filter (λ m, Message.conversationId m = conversation_id)
                           (snd <$> map_to_list table)))%nat).
  { destruct (table !! key) as [x|] eqn:Hkey.
    - rewrite <- (map_to_list_delete table key x Hkey), fmap_cons. cbn [snd].
      destruct (decide (Message.conversationId x = conversation_id)).
      + rewrite (filter_cons_True _ x) by done. cbn [length]. lia.
      + by rewrite (filter_cons_False _ x).
    - by rewrite delete_id. }
  destruct (decide (Message.conversationId m = conversation_id)).
  - rewrite filter_cons_True by done. cbn [length]. lia.
  - rewrite filter_cons_False by done. lia.
Qed.

(** X11: no offer in the first exchange.  When at most one message of
    the conversation is stored, as after the start request, a message
    request answered with 200 carries no offer and leaves the offers table
    as it is, whatever the text of the message and whatever the draw. *)
Theorem first_exchange_never_offers
    (fields : gmap string string) pp env faults s response w
    (conversation_id user_message user_id : string) (conversation : Conversation.t) :
  fields !! "conversationId" = Some conversation_id →
  fields !! "message" = Some user_message →
  fields !! "userId" = Some user_id →
  conversations_table s !! conversation_id = Some conversation →
  Conversation.userId conversation = user_id →
  (length (messages_of conversation_id (messages_table s)) ≤ 1)%nat →
  run (send_message.handler
         {| body := Some (Json fields); pathParameters := pp |} env) faults s =
    (Value response, w) →
  statusCode response = 200%Z →
  ∃ message,
    payload response = MessageData message None ∧
    offers_table (store w) = offers_table s.
Proof.
  intros Hc Hm Hu Hconv Howner Hfirst Hrun Hcode.
  destruct (faults 0) eqn:F0.
  { rewrite (message_handler_not_found _ _ _ _ _ _ _ _ Hc Hm Hu) in Hrun by auto.
    injection Hrun as <- _. discriminate Hcode. }
  rewrite (message_handler_run _ _ _ _ _ _ _ _ _ Hc Hm Hu Hconv Howner F0) in Hrun.
  cbv zeta in Hrun.
  destruct (faults 1); [injection Hrun as <- _; discriminate Hcode|].
  destruct (faults 2); [injection Hrun as <- _; discriminate Hcode|].
  match type of Hrun with
  | context [send_message.should_generate_offer ?n _ _] =>
      assert (Hcount : (n < 4)%Z)
  end.
  { destruct (faults 3); [lia|]. cbn [messages_table with_messages].
    pose proof (messages_of_insert_le conversation_id
                  (send_message.user_message_id env) (messages_table s)
                  (send_message.user_message_item conversation_id user_message env)).
    match goal with
    | |- (Z.of_nat (length (messages_of _ (<[?k := ?m]> ?t))) < 4)%Z =>
        pose proof (messages_of_insert_le conversation_id k t m)
    end.
    cbn [Message.id send_message.user_message_item] in *. lia. }
  unfold send_message.should_generate_offer in Hrun at 1.
  apply Z.ltb_lt in Hcount. rewrite Hcount in Hrun.
  destruct (faults 4); [injection Hrun as <- _; discriminate Hcode|].
  injection Hrun as <- <-. by eexists.
Qed.

Lemma first_exchange_never_offers_witness :
  ∃ response w,
    run (send_message.handler (sample.post sample.message_fields)
           (sample.message_env "msg-2" "msg-3" "offer-0" "2024-05-01T10:01:00Z"))
        no_faults sample.started = (Value response, w) ∧
    ∃ message,
      payload response = MessageData message None ∧
      offers_table (store w) = offers_table sample.started.
Proof.
  eexists _, _. split; [vm_compute; reflexivity|].
  eapply (first_exchange_never_offers
            (list_to_map sample.message_fields) None
            (sample.message_env "msg-2" "msg-3" "offer-0" "2024-05-01T10:01:00Z")
            no_faults sample.started _ _
            "conv-1" "I really can't afford this anymore" "test-user-123");
    try reflexivity.
Defined.

(** X12: an offer the Message Handler returns can be resolved: the owner's
    accept or reject request for that offer, sent next, is answered with
    200 and the outcome of the action.  (No call of the second request
    raises.) *)
Theorem returned_offer_can_be_resolved
    (fields : gmap string string) pp env faults s response w
    (conversation_id user_message user_id : string) (conversation : Conversation.t)
    (message : Message.t) (offer : Offer.t)
    (fields' : gmap string string) pp' env' faults' (action : string) :
  fields !! "conversationId" = Some conversation_id →
  fields !! "message" = Some user_message →
  fields !! "userId" = Some user_id →
  conversations_table s !! conversation_id = Some conversation →
  Conversation.userId conversation = user_id →
  run (send_message.handler
         {| body := Some (Json fields); pathParameters := pp |} env) faults s =
    (Value response, w) →
  payload response = MessageData message (Some offer) →
  fields' !! "conversationId" = Some conversation_id →
  fields' !! "offerId" = Some (Offer.id offer) →
  fields' !! "action" = Some action →
  fields' !! "userId" = Some user_id →
  action = "accept" ∨ action = "reject" →
  (∀ n, faults' n = false) →
  ∃ closing w',
    run (handle_offer.handler
           {| body := Some (Json fields'); pathParameters := pp' |} env') faults' (store w) =
      (Value (handle_offer.create_response 200
                (OfferData (handle_offer.outcome_of action) closing)), w') ∧
    Message.conversationId closing = conversation_id ∧
    Message.sender closing = ai.
Proof.
  intros Hc Hm Hu Hconv Howner Hrun Hpayload Hc' Ho' Ha' Hu' Haction Hquiet.
  destruct (faults 0) eqn:F0.
  { rewrite (message_handler_not_found _ _ _ _ _ _ _ _ Hc Hm Hu) in Hrun by auto.
    injection Hrun as <- _. discriminate Hpayload. }
  rewrite (message_handler_run _ _ _ _ _ _ _ _ _ Hc Hm Hu Hconv Howner F0) in Hrun.
  cbv zeta in Hrun.
  destruct (faults 1); [injection Hrun as <- _; discriminate Hpayload|].
  destruct (faults 2); [injection Hrun as <- _; discriminate Hpayload|].
  destruct (send_message.should_generate_offer _ _ _).
  - destruct (faults 4); [injection Hrun as <- _; discriminate Hpayload|].
    destruct (faults 5); [injection Hrun as <- _; discriminate Hpayload|].
    injection Hrun as <- <-. cbn in Hpayload. injection Hpayload as _ <-.
    eexists _, _. split.
    { eapply (offer_handler_resolves fields' pp' env' faults' _
               conversation_id _ action user_id
               (send_message.set_updatedAt (send_message.timestamp env) conversation)
               (send_message.retention_offer conversation_id conversation env));
        try done.
      + cbn. by rewrite lookup_alter_eq, Hconv.
      + cbn. apply lookup_insert_eq. }
    split; reflexivity.
  - destruct (faults 4); [injection Hrun as <- _; discriminate Hpayload|].
    injection Hrun as <- _. discriminate Hpayload.
Qed.

Lemma returned_offer_can_be_resolved_witness :
  ∃ response w message offer,
    run (send_message.handler (sample.post sample.message_fields)
           (sample.message_env "msg-4" "msg-5" "offer-1" "2024-05-01T10:02:00Z"))
        no_faults sample.exchanged = (Value response, w) ∧
    payload response = MessageData message (Some offer) ∧
    ∃ closing w',
      run (handle_offer.handler
             (sample.post (sample.offer_fields "offer-1" "accept" "test-user-123"))
             (sample.offer_env "msg-6" "2024-05-01T10:03:00Z")) no_faults (store w) =
        (Value (handle_offer.create_response 200
                  (OfferData (handle_offer.outcome_of "accept") closing)), w') ∧
      Message.conversationId closing = "conv-1" ∧
      Message.sender closing = ai.
Proof.
  eexists _, _, _, _. split; [vm_compute; reflexivity|]. split; [reflexivity|].
  eapply (returned_offer_can_be_resolved
            (list_to_map sample.message_fields) None
            (sample.message_env "msg-4" "msg-5" "offer-1" "2024-05-01T10:02:00Z")
            no_faults sample.exchanged _ _
            "conv-1" "I really can't afford this anymore" "test-user-123" _ _ _
            (list_to_map (sample.offer_fields "offer-1" "accept" "test-user-123"))
            None (sample.offer_env "msg-6" "2024-05-01T10:03:00Z") no_faults "accept");
    try reflexivity.
  by left.
Defined.

(** X13: the Message Handler only ever adds to the offers: after a
    request answered with 200, the offers table is the one from before
    with the returned offer, if there is one, written under its id.  The
    new offer is pending; the handler does not look at the offers that are
    stored, so that a pending offer of the same conversation stays as it
    is next to the new one. *)
Theorem message_handler_adds_offers
    (fields : gmap string string) pp env faults s response w
    (conversation_id user_message user_id : string) (conversation : Conversation.t) :
  fields !! "conversationId" = Some conversation_id →
  fields !! "message" = Some user_message →
  fields !! "userId" = Some user_id →
  conversations_table s !! conversation_id = Some conversation →
  Conversation.userId conversation = user_id →
  run (send_message.handler
         {| body := Some (Json fields); pathParameters := pp |} env) faults s =
    (Value response, w) →
  statusCode response = 200%Z →
  ∃ message offer,
    payload response = MessageData message offer ∧
    offers_table (store w) =
      match offer with
      | Some o => <[Offer.id o := o]> (offers_table s)
      | None => offers_table s
      end ∧
    (∀ o, offer = Some o →
          Offer.status o = pending ∧
          Offer.conversationId o = conversation_id ∧
          Offer.id o = send_message.offer_id env ∧
          ∀ key o', key ≠ Offer.id o → offers_table s !! key = Some o' →
                    offers_table (store w) !! key = Some o').
Proof.
  intros Hc Hm Hu Hconv Howner Hrun Hcode.
  destruct (faults 0) eqn:F0.
  { rewrite (message_handler_not_found _ _ _ _ _ _ _ _ Hc Hm Hu) in Hrun by auto.
    injection Hrun as <- _. discriminate Hcode. }
  rewrite (message_handler_run _ _ _ _ _ _ _ _ _ Hc Hm Hu Hconv Howner F0) in Hrun.
  cbv zeta in Hrun.
  destruct (faults 1); [injection Hrun as <- _; discriminate Hcode|].
  destruct (faults 2); [injection Hrun as <- _; discriminate Hcode|].
  destruct (send_message.should_generate_offer _ _ _).
  - destruct (faults 4); [injection Hrun as <- _; discriminate Hcode|].
    destruct (faults 5); [injection Hrun as <- _; discriminate Hcode|].
    injection Hrun as <- <-. eexists _, _. split; [reflexivity|].
    split; [reflexivity|]. intros o [= <-]. repeat split.
    intros key o' Hkey Ho'. cbn. by rewrite lookup_insert_ne.
  - destruct (faults 4); [injection Hrun as <- _; discriminate Hcode|].
    injection Hrun as <- <-. eexists _, _. split; [reflexivity|].
    split; [reflexivity|]. intros o [=].
Qed.

Lemma message_handler_adds_offers_witness :
  ∃ response w,
    run (send_message.handler (sample.post sample.message_fields)
           (sample.message_env "msg-6" "msg-7" "offer-2" "2024-05-01T10:03:00Z"))
        no_faults sample.offered = (Value response, w) ∧
    (Offer.status <$> offers_table sample.offered !! "offer-1") = Some pending ∧
    (Offer.status <$> offers_table (store w) !! "offer-1") = Some pending ∧
    (Offer.status <$> offers_table (store w) !! "offer-2") = Some pending.
Proof.
  eexists _, _. split; [vm_compute; reflexivity|].
  edestruct (message_handler_adds_offers
               (list_to_map sample.message_fields) None
               (sample.message_env "msg-6" "msg-7" "offer-2" "2024-05-01T10:03:00Z")
               no_faults sample.offered)
    as (message & offer & Hpayload & Htable & Hnew);
    [vm_compute; reflexivity .. | ].
  rewrite Htable. cbn in Hpayload. injection Hpayload as _ <-.
  split; [vm_compute; reflexivity|]. split; vm_compute; reflexivity.
Defined.

(** ** The Offer Handler: rejections, finality, partial failure *)



Lemma offer_handler_keeps_resolved event env faults s key (o : Offer.t) :
  offers_table s !! key = Some o →
  Offer.status o ≠ pending →
  offers_table (store (snd (run (handle_offer.handler event env) faults s))) !! key =
  Some o.
Proof.
  intros Hkey Hresolved. unfold_handlers.
  destruct event as [[[|fields]|] pp]; run_calls; handler_cases faults;
    cbn; try assumption;
    (destruct (decide (fields !!! "offerId" = key)) as [Heq|Hne];
     [|by rewrite lookup_alter_ne]);
    exfalso; rewrite Heq in *;
    repeat match goal with
    | H : bool_decide _ = false |- _ => apply bool_decide_eq_false in H
    end;
    simplify_eq; naive_solver.
Qed.

Lemma message_handler_keeps_offers event env faults s key (o : Offer.t) :
  offers_table s !! key = Some o →
  key ≠ send_message.offer_id env →
  offers_table (store (snd (run (send_message.handler event env) faults s))) !! key =
  Some o.
Proof.
  intros Hkey Hne. unfold_handlers.
  destruct event as [[[|fields]|] pp]; run_calls; handler_cases faults;
    cbn; try assumption; by rewrite lookup_insert_ne.
Qed.

Lemma start_handler_keeps_offers event env faults s :
  offers_table (store (snd (run (start_conversation.handler event env) faults s))) =
  offers_table s.
Proof.
  unfold_handlers.
  destruct event as [[[|fields]|] pp]; run_calls; handler_cases faults; reflexivity.
Qed.

(** X15: a resolved offer is final.  An offer that is accepted or
    rejected is never changed again by a sequence of requests, whatever
    their fault schedules: the Offer Handler refuses it and no other
    handler updates offers.  (No message request of the sequence draws the
    id of the offer for a new offer.) *)
Theorem resolved_offer_is_final (requests : list (Request * Faults)) s key (o : Offer.t) :
  offers_table s !! key = Some o →
  Offer.status o ≠ pending →
  Forall (λ request, key ∉ drawn_offer_ids (fst request)) requests →
  offers_table (serve_all requests s) !! key = Some o.
Proof.
  intros Hkey Hresolved Hids. revert s Hkey.
  induction Hids as [|[request faults] requests Hid _ IH]; intros s Hkey; [done|].
  unfold serve_all. cbn [foldl]. apply IH. unfold serve. cbn [fst snd] in *.
  destruct request as [event env|event env|event env|event]; cbn [handle].
  - by rewrite start_handler_keeps_offers.
  - apply message_handler_keeps_offers; [done|].
    cbn in Hid. set_solver.
  - by apply offer_handler_keeps_resolved.
  - pose proof (read_handler_no_write event faults s) as [Hs _].
    cbv zeta in Hs. by rewrite Hs.
Qed.

Lemma resolved_offer_is_final_witness :
  ∃ o,
    offers_table
      (serve_all
         [(OfferRequest (sample.post (sample.offer_fields "offer-1" "accept" "test-user-123"))
             (sample.offer_env "msg-9" "2024-05-01T10:05:00Z"), no_faults);
          (MessageRequest (sample.post sample.message_fields)
             (sample.message_env "msg-10" "msg-11" "offer-3" "2024-05-01T10:06:00Z"),
           no_faults)]
         sample.rejected_first) !! "offer-1" = Some o ∧
    Offer.status o = rejected.
Proof.
  eexists. split.
  - eapply (resolved_offer_is_final _ sample.rejected_first "offer-1").
    + vm_compute. reflexivity.
    + discriminate.
    + constructor; [cbn; apply not_elem_of_nil|].
      constructor; [|constructor]. cbn. rewrite not_elem_of_cons.
      split; [discriminate | apply not_elem_of_nil].
  - reflexivity.
Defined.

(** X16: the writes of the Offer Handler are not undone when a later one
    fails.  For a pending offer of the caller's conversation: if the
    update of the conversation raises, the answer is 500 and the offer is
    already resolved while the conversation and the messages are as they
    were; if the write of the closing message raises, the answer is 500
    and both the offer and the conversation are already updated. *)
Theorem offer_handler_no_rollback (fields : gmap string string) pp env faults s
    (conversation_id offer_id action user_id : string)
    (conversation : Conversation.t) (offer : Offer.t) :
  fields !! "conversationId" = Some conversation_id →
  fields !! "offerId" = Some offer_id →
  fields !! "action" = Some action →
  fields !! "userId" = Some user_id →
  action = "accept" ∨ action = "reject" →
  conversations_table s !! conversation_id = Some conversation →
  Conversation.userId conversation = user_id →
  offers_table s !! offer_id = Some offer →
  Offer.conversationId offer = conversation_id →
  Offer.status offer = pending →
  faults 0 = false → faults 1 = false → faults 2 = false →
  faults 3 = true ∨ faults 4 = true →
  ∃ w,
    run (handle_offer.handler
           {| body := Some (Json fields); pathParameters := pp |} env) faults s =
      (Value (handle_offer.create_response 500 (Error "Internal server error")), w) ∧
    offers_table (store w) !! offer_id =
      Some (handle_offer.set_offer_status (handle_offer.offer_status_of action)
              (handle_offer.timestamp env) offer) ∧
    messages_table (store w) = messages_table s ∧
    conversations_table (store w) !! conversation_id =
      Some (if faults 3 then conversation
            else handle_offer.set_conversation_outcome completed
                   (handle_offer.outcome_of action) (handle_offer.timestamp env)
                   conversation).
Proof.
  intros Hc Ho Ha Hu Haction Hconv Howner Hoffer Hof Hpending F0 F1 F2 F34.
  unfold run, handle_offer.handler. cbn [body].
  rewrite first_missing_None
    by (unfold handle_offer.required_fields; repeat constructor; eauto).
  rewrite (lookup_total_correct _ _ _ Hc), (lookup_total_correct _ _ _ Ho),
    (lookup_total_correct _ _ _ Ha), (lookup_total_correct _ _ _ Hu).
  cbv zeta.
  replace (negb (String.eqb action "accept" || String.eqb action "reject")) with false
    by (by destruct Haction as [-> | ->]).
  run_calls. rewrite F0, Hconv. cbn [found].
  rewrite bool_decide_eq_false_2 by (intros Hne; by apply Hne).
  cbn [log store length app fst snd]. rewrite F1, Hoffer.
  rewrite bool_decide_eq_false_2 by (intros Hne; by apply Hne).
  rewrite bool_decide_eq_false_2 by (intros Hne; by apply Hne).
  cbn [log store length app fst snd]. rewrite F2.
  cbn [log store length app fst snd].
  destruct (faults 3) eqn:F3; cbn [log store length app fst snd].
  - eexists. split; [reflexivity|]. cbn.
    by rewrite lookup_alter_eq, Hoffer.
  - destruct F34 as [|F4]; [done|]. rewrite F4.
    eexists. split; [reflexivity|]. cbn.
    by rewrite !lookup_alter_eq, Hoffer, Hconv.
Qed.

Lemma offer_handler_no_rollback_witness :
  ∃ w offer conversation,
    run (handle_offer.handler
           (sample.post (sample.offer_fields "offer-1" "accept" "test-user-123"))
           (sample.offer_env "msg-6" "2024-05-01T10:03:00Z"))
        (fails_at 3) sample.offered =
      (Value (handle_offer.create_response 500 (Error "Internal server error")), w) ∧
    offers_table (store w) !! "offer-1" = Some offer ∧
    Offer.status offer = accepted ∧
    conversations_table (store w) !! "conv-1" = Some conversation ∧
    Conversation.status conversation = active.
Proof.
  edestruct (offer_handler_no_rollback
               (list_to_map (sample.offer_fields "offer-1" "accept" "test-user-123"))
               None (sample.offer_env "msg-6" "2024-05-01T10:03:00Z")
               (fails_at 3) sample.offered
               "conv-1" "offer-1" "accept" "test-user-123")
    as (w & Hrun & Hoffer & _ & Hconv);
    [first [by left | vm_compute; reflexivity] .. | ].
  eexists w, _, _. split; [exact Hrun|]. split; [exact Hoffer|].
  split; [reflexivity|]. split; [exact Hconv|]. reflexivity.
Defined.

(** ** What no request does: delete, rewrite a message, touch another
    conversation *)

Ltac preserves_handler :=
  unfold start_conversation.handler, send_message.handler,
    send_message.get_conversation, send_message.get_message_count,
    send_message.maybe_offer, send_message.generate_retention_offer,
    handle_offer.handler, get_conversation.handler,
    conversations_get_item, conversations_put_item, conversations_update_item,
    messages_put_item, messages_query,
    offers_get_item, offers_put_item, offers_update_item, offers_query;
  cbv zeta; cbn [body pathParameters];
  repeat preserves_step; cbn [fst snd]; try assumption.

Lemma handle_keeps_keys s0 request : preserves (keys_kept s0) (handle request).
Proof.
  destruct request as [event env|event env|event env|event]; cbn [handle];
    preserves_handler;
    match goal with
    | H : keys_kept _ _ |- keys_kept _ _ =>
        destruct H as (Hc & Hm & Ho); repeat split; cbn;
        rewrite ?dom_insert_L, ?dom_alter_L; set_solver
    end.
Qed.

(** X17: nothing is ever deleted: after any sequence of requests, under
    any fault schedules, every key of the conversations, messages and
    offers tables is still a key of its table. *)
Theorem nothing_is_deleted (requests : list (Request * Faults)) s :
  keys_kept s (serve_all requests s).
Proof.
  unfold serve_all.
  enough (Hgen : ∀ s', keys_kept s s' → keys_kept s (foldl serve s' requests))
    by (by apply Hgen).
  induction requests as [|[request faults] requests IH]; intros s' Hs'; [done|].
  cbn [foldl]. apply IH. unfold serve, run. cbn [fst snd].
  by apply handle_keeps_keys.
Qed.

Lemma handle_keeps_message request key (m : Message.t) :
  key ∉ drawn_message_ids request →
  preserves (λ s, messages_table s !! key = Some m) (handle request).
Proof.
  intros Hkey.
  destruct request as [event env|event env|event env|event]; cbn [handle];
    preserves_handler; cbn in *;
    rewrite lookup_insert_ne; (assumption || set_solver).
Qed.

(** X18: messages are immutable: a stored message is found unchanged
    under its id after any sequence of requests, whatever their fault
    schedules.  (No request of the sequence draws that id for a new
    message.) *)
Theorem messages_are_immutable (requests : list (Request * Faults)) s key (m : Message.t) :
  messages_table s !! key = Some m →
  Forall (λ request, key ∉ drawn_message_ids (fst request)) requests →
  messages_table (serve_all requests s) !! key = Some m.
Proof.
  intros Hkey Hids. revert s Hkey.
  induction Hids as [|[request faults] requests Hid _ IH]; intros s Hkey; [done|].
  unfold serve_all. cbn [foldl]. apply IH. unfold serve, run. cbn [fst snd] in *.
  by apply (handle_keeps_message request key m Hid).
Qed.

Lemma handle_keeps_other_conversations request key (c : option Conversation.t) :
  addressed_conversation request ≠ Some key →
  preserves (λ s, conversations_table s !! key = c) (handle request).
Proof.
  intros Hkey.
  destruct request as [event env|[[[|fields]|] pp] env|[[[|fields]|] pp] env|event];
    cbn [handle]; cbn [addressed_conversation body] in Hkey;
    try (preserves_handler; fail).
  - preserves_handler. cbn in *. rewrite lookup_insert_ne; [assumption | congruence].
  - unfold send_message.handler. cbn [body].
    destruct (fields !! "conversationId") as [v|] eqn:Hv.
    + rewrite (lookup_total_correct _ _ _ Hv).
      preserves_handler. cbn. rewrite lookup_alter_ne; [assumption | congruence].
    + unfold first_missing, send_message.required_fields. cbn [List.find].
      rewrite Hv, bool_decide_eq_true_2 by done. preserves_handler.
  - unfold handle_offer.handler. cbn [body].
    destruct (fields !! "conversationId") as [v|] eqn:Hv.
    + rewrite (lookup_total_correct _ _ _ Hv).
      preserves_handler. cbn. rewrite lookup_alter_ne; [assumption | congruence].
    + unfold first_missing, handle_offer.required_fields. cbn [List.find].
      rewrite Hv, bool_decide_eq_true_2 by done. preserves_handler.
Qed.

(** X19: a request writes to no conversation but its own: the record of
    every conversation other than the one a start request creates, or the
    one a message or offer request names in its body, is the same after
    the request as before, under any fault schedule. *)
Theorem other_conversations_untouched (request : Request) faults s key :
  addressed_conversation request ≠ Some key →
  conversations_table (serve s (request, faults)) !! key = conversations_table s !! key.
Proof.
  intros Hkey. unfold serve, run. cbn [fst snd].
  by apply (handle_keeps_other_conversations request key
              (conversations_table s !! key) Hkey).
Qed.

Lemma nothing_is_deleted_witness :
  keys_kept empty_store (serve_all sample.requests empty_store) ∧
  keys_kept sample.started (serve_all (drop 1 sample.requests) sample.started).
Proof.
  split.
  - apply (nothing_is_deleted sample.requests empty_store).
  - apply (nothing_is_deleted (drop 1 sample.requests) sample.started).
Defined.

Lemma messages_are_immutable_witness :
  messages_table (serve_all (drop 1 sample.requests) sample.started) !! "msg-1" =
  Some (start_conversation.message_item (list_to_map sample.start_fields) sample.start_env).
Proof.
  apply (messages_are_immutable (drop 1 sample.requests) sample.started "msg-1").
  - vm_compute. reflexivity.
  - cbn [drop sample.requests].
    repeat (constructor;
            [cbn; rewrite ?not_elem_of_cons; repeat split;
             try discriminate; apply not_elem_of_nil|]).
    constructor.
Defined.

Lemma other_conversations_untouched_witness :
  let s := serve sample.offered
             (StartRequest (sample.post sample.start_fields)
                {| start_conversation.conversation_id := "conv-2";
                   start_conversation.message_id := "msg-20";
                   start_conversation.timestamp := "2024-05-02T09:00:00Z" |},
              no_faults) in
  is_Some (conversations_table s !! "conv-2") ∧
  conversations_table
    (serve s (OfferRequest
                (sample.post (sample.offer_fields "offer-1" "accept" "test-user-123"))
                (sample.offer_env "msg-6" "2024-05-02T09:01:00Z"), no_faults)) !! "conv-2" =
  conversations_table s !! "conv-2".
Proof.
  intros s. split; [by eexists|].
  apply (other_conversations_untouched
           (OfferRequest
              (sample.post (sample.offer_fields "offer-1" "accept" "test-user-123"))
              (sample.offer_env "msg-6" "2024-05-02T09:01:00Z")) no_faults s "conv-2").
  vm_compute. discriminate.
Defined.

(** ** The shared helper and the inline validation *)

(** X20: [validate_required_fields] accepts exactly the data in which
    every required field is present with a value other than [None], and
    otherwise returns the message that names a required field which is
    absent or [None]; on data without [None] values it returns what the
    handlers' own loop over the required fields reports. *)
Theorem validate_required_fields_spec
    (data : gmap string (option string)) (required_fields : list string) :
  (utils.validate_required_fields data required_fields = None ↔
   Forall (λ field, ∃ v, data !! field = Some (Some v)) required_fields) ∧
  (∀ message, utils.validate_required_fields data required_fields = Some message →
     ∃ field, field ∈ required_fields ∧
              message = "Missing required field: " ++ field ∧
              (data !! field = None ∨ data !! field = Some None)) ∧
  (∀ fields : gmap string string,
     utils.validate_required_fields (Some <$> fields) required_fields =
     (λ field, "Missing required field: " ++ field) <$>
       first_missing required_fields fields).
Proof.
  unfold utils.validate_required_fields, first_missing. split; [|split].
  - rewrite fmap_None. induction required_fields as [|field l IH]; cbn [List.find].
    + split; [constructor | done].
    + case_bool_decide as Hfield.
      * split; [discriminate|]. intros Hall. apply Forall_cons in Hall as [[v Hv] _].
        rewrite Hv in Hfield. destruct Hfield; discriminate.
      * rewrite IH. split.
        -- intros Hall. constructor; [|done].
           destruct (data !! field) as [[v|]|].
           ++ by eexists.
           ++ destruct Hfield. by right.
           ++ destruct Hfield. by left.
        -- intros Hall. by apply Forall_cons in Hall as [_ Hall].
  - intros message Hmessage. apply fmap_Some in Hmessage as (field & Hfind & ->).
    apply find_some in Hfind as [Hin Hfield]. apply bool_decide_eq_true in Hfield.
    exists field. split; [by apply list_elem_of_In | done].
  - intros fields. f_equal.
    induction required_fields as [|field l IH]; cbn [List.find]; [done|].
    rewrite IH. rewrite lookup_fmap.
    destruct (fields !! field) as [v|]; cbn.
    + by rewrite bool_decide_eq_false_2 by (intros [?|?]; discriminate).
    + reflexivity.
Qed.

Lemma validate_required_fields_spec_witness :
  utils.validate_required_fields
    (Some <$> list_to_map [("userId", "u"); ("subscriptionId", "s");
                           ("reasonText", "no longer needed")])
    start_conversation.required_fields =
  Some "Missing required field: reason".
Proof.
  rewrite (proj2 (proj2 (validate_required_fields_spec ∅
                           start_conversation.required_fields))
             (list_to_map [("userId", "u"); ("subscriptionId", "s");
                           ("reasonText", "no longer needed")])).
  vm_compute. reflexivity.
Defined.

(** ** Closed conversations and half-made writes *)



(** X22: the Start Handler does not undo its first write: when the write
    of the initial message raises, the answer is 500 and the conversation
    record is stored all the same, active and without outcome, with no
    message written for it. *)
Theorem start_handler_no_rollback (fields : gmap string string) pp env faults s :
  Forall (λ f, is_Some (fields !! f)) start_conversation.required_fields →
  faults 0 = false →
  faults 1 = true →
  ∃ w,
    run (start_conversation.handler
           {| body := Some (Json fields); pathParameters := pp |} env) faults s =
      (Value (start_conversation.create_response 500 (Error "Internal server error")), w) ∧
    conversations_table (store w) !! start_conversation.conversation_id env =
      Some (start_conversation.conversation_item fields env) ∧
    messages_table (store w) = messages_table s ∧
    log w = [Returned (PutItem Conversations (start_conversation.conversation_id env)) 0;
             Raised (PutItem Messages (start_conversation.message_id env))].
Proof.
  intros Hfields F0 F1.
  rewrite start_handler_run by by apply first_missing_None.
  cbv zeta. rewrite F0, F1. eexists. split; [reflexivity|].
  cbn. by rewrite lookup_insert_eq.
Qed.

Lemma start_handler_no_rollback_witness :
  ∃ w,
    run (start_conversation.handler (sample.post sample.start_fields) sample.start_env)
        (fails_at 1) empty_store =
      (Value (start_conversation.create_response 500 (Error "Internal server error")), w) ∧
    conversations_table (store w) !! "conv-1" =
      Some (start_conversation.conversation_item
              (list_to_map sample.start_fields) sample.start_env) ∧
    messages_table (store w) = ∅ ∧
    log w = [Returned (PutItem Conversations "conv-1") 0;
             Raised (PutItem Messages "msg-1")].
Proof.
  apply (start_handler_no_rollback (list_to_map sample.start_fields) None
           sample.start_env (fails_at 1) empty_store).
  - unfold start_conversation.required_fields. repeat constructor; by eexists.
  - reflexivity.
  - reflexivity.
Defined.

Lemma generate_retention_offer_candidate_witness :
  send_message.offer_types "found_alternative" = send_message.offer_types "other" ∧
  ∃ offer,
    send_message.generate_retention_offer "conv-1"
      (start_conversation.conversation_item
         (list_to_map [("userId", "u"); ("subscriptionId", "s");
                       ("reason", "found_alternative"); ("reasonText", "moved on")])
         sample.start_env)
      (sample.message_env "msg-2" "msg-3" "offer-1" "2024-05-01T10:01:00Z") = Some offer ∧
    Offer.status offer = pending.
Proof.
  destruct (generate_retention_offer_candidate "conv-1"
              (start_conversation.conversation_item
                 (list_to_map [("userId", "u"); ("subscriptionId", "s");
                               ("reason", "found_alternative"); ("reasonText", "moved on")])
                 sample.start_env)
              (sample.message_env "msg-2" "msg-3" "offer-1" "2024-05-01T10:01:00Z"))
    as (offer & template & Hsome & Hpending & _ & _ & _ & _ & _ & _ & _ & _ & _ & _ & Hdefault).
  split.
  - apply Hdefault. intros Hin.
    repeat (apply elem_of_cons in Hin as [Hin|Hin];
            [vm_compute in Hin; discriminate Hin|]).
    by apply elem_of_nil in Hin.
  - by exists offer.
Defined.
